(** * NexusChain front end: verification, registration and product detail

    A shallow embedding of the three source files

    - [src/frontend/src/services/api.js] (the Axios client, its interceptors
      and the [productsAPI] / [checkpointsAPI] method tables),
    - [src/frontend/src/app/products/verify/page.jsx] ([handleVerify] and the
      result panel),
    - [src/frontend/src/components/products/ProductRegistrationForm.jsx]
      ([productSchema], [onSubmit], and the [ProductDetailPage] component that
      shares the file),

    followed by the properties of the provenance workflow that hold, or fail,
    on that code. *)

From Stdlib Require Import String Ascii List ZArith QArith Qabs Bool Lia.
From stdpp Require Import gmap strings list pretty.
Import ListNotations.

Set Warnings "-register-all".

Local Open Scope string_scope.
Local Open Scope Z_scope.

(** ** JavaScript values

    Strings are sequences of code units; the embedding covers the code units
    U+0000..U+00FF, one [ascii] each, so [String.length] is the [length]
    property.  Numbers are IEEE doubles: the finite ones are rationals, and
    only their sign, their order and their truthiness are used by the code
    modelled here. *)

Module JS.

Inductive num : Type :=
| NaN
| Fin (q : Q)
| Inf (negative : bool).

Inductive value : Type :=
| Undefined
| Null
| Bool (b : bool)
| Num (n : num)
| Str (s : string)
| Arr (items : list value)
| Obj (props : list (string * value)).

(** [ToBoolean]. *)
Definition num_truthy (n : num) : bool :=
  match n with
  | NaN => false
  | Fin q => negb (Qeq_bool q 0)
  | Inf _ => true
  end.

Definition truthy (v : value) : bool :=
  match v with
  | Undefined | Null => false
  | Bool b => b
  | Num n => num_truthy n
  | Str s => negb (String.eqb s "")
  | Arr _ | Obj _ => true
  end.

(** [a || b] on values. *)
Definition or (a b : value) : value := if truthy a then a else b.

(** The relational operator [a < b] on numbers. *)
Definition num_lt (a b : num) : bool :=
  match a, b with
  | NaN, _ | _, NaN => false
  | Fin x, Fin y => if Qlt_le_dec x y then true else false
  | Fin _, Inf negative => negb negative
  | Inf negative, Fin _ => negative
  | Inf n1, Inf n2 => n1 && negb n2
  end.

(** Own properties of an object literal or a parsed JSON object: the first
    binding of the key. *)
Fixpoint own (props : list (string * value)) (k : string) : value :=
  match props with
  | [] => Undefined
  | (k', v) :: rest => if String.eqb k' k then v else own rest k
  end.

(** Outcome of evaluating an expression or awaiting a promise: a value, or
    a thrown value (a rejection, once awaited). *)
Inductive completion (A : Type) : Type :=
| Normal (a : A)
| Throw (e : value).
Arguments Normal {A} a.
Arguments Throw {A} e.

Definition type_error (message : string) : value :=
  Obj [("name", Str "TypeError"); ("message", Str message)].

(** [v.k].  Reading a property of [undefined] or [null] throws; properties
    inherited from the prototypes of primitives and arrays are not
    modelled (the code reads none of them through this function). *)
Definition get (v : value) (k : string) : completion value :=
  match v with
  | Undefined | Null =>
      Throw (type_error ("Cannot read properties of undefined (reading '" ++ k ++ "')"))
  | Obj props => Normal (own props k)
  | _ => Normal Undefined
  end.

(** [v?.k]. *)
Definition opt_get (v : value) (k : string) : value :=
  match v with
  | Obj props => own props k
  | _ => Undefined
  end.

(** [ToString], as a template literal applies it to an interpolated value.
    The decimal rendering of a number is left to [number_to_string]. *)
Fixpoint to_string (number_to_string : num -> string) (v : value) : string :=
  match v with
  | Undefined => "undefined"
  | Null => "null"
  | Bool b => if b then "true" else "false"
  | Num n => number_to_string n
  | Str s => s
  | Arr items =>
      (fix join (l : list value) : string :=
         match l with
         | [] => ""
         | x :: rest =>
             let piece := match x with
                          | Undefined | Null => ""
                          | _ => to_string number_to_string x
                          end in
             match rest with
             | [] => piece
             | _ => piece ++ "," ++ join rest
             end
         end) items
  | Obj _ => "[object Object]"
  end.

(** Whitespace and line terminators removed by [String.prototype.trim],
    among the code units covered. *)
Definition is_space (c : ascii) : bool :=
  let n := nat_of_ascii c in
  (Nat.eqb n 9 || Nat.eqb n 10 || Nat.eqb n 11 || Nat.eqb n 12
   || Nat.eqb n 13 || Nat.eqb n 32 || Nat.eqb n 160)%bool.

Fixpoint trimStart (s : string) : string :=
  match s with
  | EmptyString => EmptyString
  | String c rest => if is_space c then trimStart rest else s
  end.

(** [trimEnd]: a character is kept when it is not a space or when something
    is kept after it. *)
Fixpoint trimEnd (s : string) : string :=
  match s with
  | EmptyString => EmptyString
  | String c rest =>
      match trimEnd rest with
      | EmptyString => if is_space c then EmptyString else String c EmptyString
      | kept => String c kept
      end
  end.

Definition trim (s : string) : string := trimEnd (trimStart s).

(** A string made of spaces only (the empty string included). *)
Fixpoint blank (s : string) : bool :=
  match s with
  | EmptyString => true
  | String c rest => is_space c && blank rest
  end.

End JS.

Import JS.

(** ** The world the handlers act on

    What the browser keeps between calls ([localStorage], the location), the
    console, the log of HTTP requests that left the client, and the log of
    the calls made to the other collaborators (wallet, QR renderer). *)

(** A request as the code hands it to Axios.  [req_url] is the string
    given to [api.get] and the like; the percent-encoding the HTTP client
    applies to it before it goes on the wire is not modelled. *)
Record request : Type := {
  req_method : string;
  req_url : string;
  req_payload : value;
  req_authorization : option string
}.

Record World : Type := {
  requests : list request;
  calls : list (string * value);
  console : list (string * value);
  localStorage : gmap string string;
  location_href : option string
}.

Definition log_request (r : request) (w : World) : World :=
  {| requests := requests w ++ [r]; calls := calls w; console := console w;
     localStorage := localStorage w; location_href := location_href w |}.

Definition console_error (label : string) (e : value) (w : World) : World :=
  {| requests := requests w; calls := calls w; console := console w ++ [(label, e)];
     localStorage := localStorage w; location_href := location_href w |}.

Definition log_call (callee : string) (argument : value) (w : World) : World :=
  {| requests := requests w; calls := calls w ++ [(callee, argument)];
     console := console w;
     localStorage := localStorage w; location_href := location_href w |}.

Definition removeItem (k : string) (w : World) : World :=
  {| requests := requests w; calls := calls w; console := console w;
     localStorage := delete k (localStorage w); location_href := location_href w |}.

Definition set_location (href : string) (w : World) : World :=
  {| requests := requests w; calls := calls w; console := console w;
     localStorage := localStorage w; location_href := Some href |}.

(** Effectful code: a state transformer that completes normally or throws.
    The state is the [World] for the service layer, and the component state
    paired with the [World] for the handlers of a page. *)
Definition M (S A : Type) : Type := S -> S * completion A.

Definition ret {S A} (a : A) : M S A := fun s => (s, Normal a).
Definition throw {S A} (e : value) : M S A := fun s => (s, Throw e).
Definition bind {S A B} (m : M S A) (k : A -> M S B) : M S B :=
  fun s => match m s with
           | (s', Normal a) => k a s'
           | (s', Throw e) => (s', Throw e)
           end.
Definition try_catch {S A} (body : M S A) (handler : value -> M S A) : M S A :=
  fun s => match body s with
           | (s', Normal a) => (s', Normal a)
           | (s', Throw e) => handler e s'
           end.
(** [try { body } finally { cleanup }]: the cleanup runs on both exits and
    the completion of the body is kept, unless the cleanup itself throws. *)
Definition try_finally {S A} (body : M S A) (cleanup : M S unit) : M S A :=
  fun s => match body s with
           | (s', c) => match cleanup s' with
                        | (s'', Normal _) => (s'', c)
                        | (s'', Throw e) => (s'', Throw e)
                        end
           end.
Definition lift {S A} (c : completion A) : M S A := fun s => (s, c).
Definition effect {S} (f : S -> S) : M S unit := fun s => (f s, Normal tt).
Definition read {S} : M S S := fun s => (s, Normal s).
(** A service call made from a handler: it acts on the [World] half. *)
Definition in_world {C A} (m : M World A) : M (C * World) A :=
  fun s => match m (snd s) with (w', c) => ((fst s, w'), c) end.
Definition on_component {C} (f : C -> C) : M (C * World) unit :=
  fun s => ((f (fst s), snd s), Normal tt).

Declare Scope js_scope.
Delimit Scope js_scope with js.
Notation "x <- m ;; k" := (bind m (fun x => k))
  (at level 100, m at next level, right associativity) : js_scope.
Notation "m ;;; k" := (bind m (fun _ => k))
  (at level 100, right associativity) : js_scope.
Local Open Scope js_scope.

(** ** [services/api.js]: the Axios instance and its interceptors *)

(** What the network does with a request. *)
Inductive reply : Type :=
| Response (status : Z) (data : value)
| NoResponse
| SetupFailure (message : string).

(** The collaborators and constants that [api.js] imports: the remote
    service (which may answer the [n]-th request of a session as it likes)
    and the tables of [@/utils/constants], whose file is not part of
    the sources. *)
Record Env : Type := {
  server : nat -> request -> reply;
  window_defined : bool;
  AUTH_TOKEN : string;
  USER_DATA : string;
  FORBIDDEN : string;
  NOT_FOUND : string;
  SERVER_ERROR : string;
  NETWORK_ERROR : string;
  number_to_string : num -> string
}.

(** The error object Axios rejects with. *)
Definition axios_error (response : value) (request_made : bool) (message : value) : value :=
  Obj [("name", Str "AxiosError"); ("message", message);
       ("response", response); ("request", Bool request_made)].

Section Api.
Variable env : Env.

(** Request interceptor: attach the token of [localStorage], if any. *)
Definition request_interceptor (w : World) : option string :=
  let token := if window_defined env then localStorage w !! AUTH_TOKEN env else None in
  match token with
  | Some t => if truthy (Str t) then Some ("Bearer " ++ t) else None
  | None => None
  end.

(** Response interceptor, error side. *)
Definition response_error_interceptor (r : reply) : M World value :=
  match r with
  | Response status data =>
      let response := Obj [("status", Num (Fin (inject_Z status))); ("data", data)] in
      let message := Str ("Request failed with status code " ++ pretty status) in
      if status =? 401 then
        (if window_defined env then
           effect (removeItem (AUTH_TOKEN env)) ;;;
           effect (removeItem (USER_DATA env)) ;;;
           effect (set_location "/login")
         else ret tt) ;;;
        throw (axios_error response true message)
      else if status =? 403 then throw (axios_error response true (Str (FORBIDDEN env)))
      else if status =? 404 then throw (axios_error response true (Str (NOT_FOUND env)))
      else if status =? 500 then throw (axios_error response true (Str (SERVER_ERROR env)))
      else throw (axios_error response true (or (opt_get data "message") message))
  | NoResponse => throw (axios_error Undefined true (Str (NETWORK_ERROR env)))
  | SetupFailure message => throw (axios_error Undefined false (Str message))
  end.

(** One call through the instance: [api.get], [api.post], [api.patch].  A
    2xx answer resolves to [response.data]. *)
Definition api_call (method url : string) (payload : value) : M World value :=
  fun w =>
    let r := {| req_method := method; req_url := url; req_payload := payload;
                req_authorization := request_interceptor w |} in
    match server env (length (requests w)) r with
    | Response status data =>
        if (200 <=? status) && (status <? 300)
        then (log_request r w, Normal data)
        else response_error_interceptor (Response status data) (log_request r w)
    | NoResponse => response_error_interceptor NoResponse (log_request r w)
    | SetupFailure message => response_error_interceptor (SetupFailure message) w
    end.

(** A method of an exported API object, applied to its argument list. *)
Definition method : Type := list value -> M World value.

Definition arg (n : nat) (args : list value) : value := nth n args Undefined.

(** A parameter with a default value: the default replaces [undefined]. *)
Definition with_default (v d : value) : value :=
  match v with Undefined => d | _ => v end.

Definition path (prefix : string) (v : value) : string :=
  prefix ++ to_string (number_to_string env) v.

Definition productsAPI : gmap string method :=
  {[ "create" := (fun args => api_call "POST" "/api/products" (arg 0 args));
     "getAll" := (fun args =>
        api_call "GET" "/api/products"
          (Obj [("params", with_default (arg 0 args) (Obj []))]));
     "getById" := (fun args =>
        api_call "GET" (path "/api/products/" (arg 0 args)) Undefined);
     "verify" := (fun args =>
        api_call "GET" (path "/api/products/verify/" (arg 0 args)) Undefined);
     "getByBlockchainId" := (fun args =>
        api_call "GET" (path "/api/products/blockchain/" (arg 0 args)) Undefined) ]}.

Definition checkpointsAPI : gmap string method :=
  {[ "create" := (fun args => api_call "POST" "/api/checkpoints" (arg 0 args));
     "getByProduct" := (fun args =>
        api_call "GET" (path "/api/checkpoints/product/" (arg 0 args)) Undefined);
     "update" := (fun args =>
        api_call "PATCH" (path "/api/checkpoints/" (arg 0 args)) (arg 1 args)) ]}.

(** [object.name(args)]: the arguments are already values; a property that
    is not a function makes the call throw a [TypeError] before anything
    else happens.  The table holds the own properties of the object
    literal; the names every object inherits from [Object.prototype]
    ([toString], [hasOwnProperty], ...) are not modelled, and no code
    modelled here calls one. *)
Definition call_method (object : string) (table : gmap string method)
    (name : string) (args : list value) : M World value :=
  match table !! name with
  | Some f => f args
  | None => throw (type_error (object ++ "." ++ name ++ " is not a function"))
  end.

End Api.

(** ** [app/products/verify/page.jsx] *)

Module VerifyPage.

Record VerificationResult : Type := {
  verified : bool;
  product : value
}.

(** The four [useState] cells of [VerifyProductPage]. *)
Record State : Type := {
  productId : string;
  scanning : bool;
  verificationResult : option VerificationResult;
  error : value
}.

Definition initial : State :=
  {| productId := ""; scanning := false; verificationResult := None; error := Null |}.

Definition setProductId (s : string) (st : State) : State :=
  {| productId := s; scanning := scanning st;
     verificationResult := verificationResult st; error := error st |}.
Definition setScanning (b : bool) (st : State) : State :=
  {| productId := productId st; scanning := b;
     verificationResult := verificationResult st; error := error st |}.
Definition setVerificationResult (r : VerificationResult) (st : State) : State :=
  {| productId := productId st; scanning := scanning st;
     verificationResult := Some r; error := error st |}.
Definition setError (e : value) (st : State) : State :=
  {| productId := productId st; scanning := scanning st;
     verificationResult := verificationResult st; error := e |}.

Definition notVerified : VerificationResult := {| verified := false; product := Null |}.

Section Handlers.
Variable env : Env.

(** [handleVerify], run on the state of the render it was created in. *)
Definition handleVerify : M (State * World) unit :=
  page <- read ;;
  let productId := productId (fst page) in
  if negb (truthy (Str (trim productId))) then ret tt
  else
    try_finally
      (try_catch
         (on_component (setScanning true) ;;;
          on_component (setError Null) ;;;
          product <- in_world (call_method "productsAPI" (productsAPI env)
                                 "verify" [Str productId]) ;;
          if truthy product
          then on_component (setVerificationResult {| verified := true; product := product |})
          else on_component (setVerificationResult {| verified := false; product := Null |}))
         (fun err =>
            in_world (effect (console_error "Verification error:" err)) ;;;
            on_component (setVerificationResult {| verified := false; product := Null |}) ;;;
            response <- lift (get err "response") ;;
            on_component
              (setError (or (opt_get (opt_get response "data") "message")
                            (Str "Product not found")))))
      (on_component (setScanning false)).

End Handlers.

(** What the component renders from its state: the input row and the
    result panel.  The [error] cell is read by no part of the JSX. *)
Inductive Panel : Type :=
| NoPanel
| VerifiedPanel (details : option value)
| NotFoundPanel.

Record View : Type := {
  input_value : string;
  button_disabled : bool;
  button_label : string;
  panel : Panel
}.

Definition render (st : State) : View :=
  {| input_value := productId st;
     button_disabled := negb (truthy (Str (trim (productId st)))) || scanning st;
     button_label := if scanning st then "Verifying..." else "Verify";
     panel := match verificationResult st with
              | None => NoPanel
              | Some r =>
                  if verified r
                  then VerifiedPanel (if truthy (product r) then Some (product r) else None)
                  else NotFoundPanel
              end |}.

End VerifyPage.

(** ** [components/products/ProductRegistrationForm.jsx]: the form *)

Module Registration.

(** The values [react-hook-form] hands to the resolver.  A text field is a
    string, or [None] when the field is [undefined].  A temperature is
    [None] for [undefined], and otherwise the number [Number(raw)] that
    [z.coerce.number()] computes before it checks anything. *)
Record FormValues : Type := {
  name : option string;
  productId : option string;
  category : option string;
  description : option string;
  manufacturingDate : option string;
  expiryDate : option string;
  originLocation : option string;
  minTemperature : option num;
  maxTemperature : option num
}.

(** The parsed output of the schema. *)
Record Data : Type := {
  data_name : string;
  data_productId : string;
  data_category : string;
  data_description : string;
  data_manufacturingDate : string;
  data_expiryDate : option string;
  data_originLocation : string;
  data_minTemperature : option num;
  data_maxTemperature : option num
}.

Record Issue : Type := {
  issue_path : string;
  issue_message : string
}.

(** A Zod parse: the issues raised, and the value unless the parse aborted
    (a value of the wrong type aborts; a failed check only adds an issue). *)
Definition Parsed (A : Type) : Type := (list Issue * option A)%type.

(** [z.string().min(n, message)] at key [path]. *)
Definition z_string_min (n : nat) (message path : string) (v : option string) : Parsed string :=
  match v with
  | None => ([{| issue_path := path; issue_message := "Required" |}], None)
  | Some s =>
      (if Nat.ltb (String.length s) n
       then [{| issue_path := path; issue_message := message |}]
       else [],
       Some s)
  end.

(** [z.string().optional()]. *)
Definition z_string_optional (v : option string) : Parsed (option string) := ([], Some v).

(** [z.coerce.number().optional()] at key [path]: [NaN] is not a number. *)
Definition z_coerce_number_optional (path : string) (v : option num) : Parsed (option num) :=
  match v with
  | Some NaN =>
      ([{| issue_path := path; issue_message := "Expected number, received nan" |}], None)
  | _ => ([], Some v)
  end.

(** The function given to [.refine]. *)
Definition temperature_refinement (data : Data) : bool :=
  match data_minTemperature data, data_maxTemperature data with
  | Some lo, Some hi =>
      if num_truthy lo && num_truthy hi then num_lt lo hi else true
  | _, _ => true
  end.

(** [z.object({...})]: every key is parsed, in the order of the shape; the
    object aborts when one of its keys does. *)
Definition z_object (v : FormValues) : Parsed Data :=
  let p1 := z_string_min 3 "Product name must be at least 3 characters" "name" (name v) in
  let p2 := z_string_min 3 "Product ID must be at least 3 characters" "productId" (productId v) in
  let p3 := z_string_min 1 "Please select a category" "category" (category v) in
  let p4 := z_string_min 10 "Description must be at least 10 characters" "description" (description v) in
  let p5 := z_string_min 1 "Manufacturing date is required" "manufacturingDate" (manufacturingDate v) in
  let p6 := z_string_optional (expiryDate v) in
  let p7 := z_string_min 3 "Origin location is required" "originLocation" (originLocation v) in
  let p8 := z_coerce_number_optional "minTemperature" (minTemperature v) in
  let p9 := z_coerce_number_optional "maxTemperature" (maxTemperature v) in
  ((fst p1 ++ fst p2 ++ fst p3 ++ fst p4 ++ fst p5 ++ fst p6 ++ fst p7 ++ fst p8 ++ fst p9)%list,
   a ← snd p1; b ← snd p2; c ← snd p3; d ← snd p4; e ← snd p5;
   f ← snd p6; g ← snd p7; h ← snd p8; i ← snd p9;
   Some {| data_name := a; data_productId := b; data_category := c;
           data_description := d; data_manufacturingDate := e;
           data_expiryDate := f; data_originLocation := g;
           data_minTemperature := h; data_maxTemperature := i |}).

(** [productSchema]: the object, then the refinement (run unless the object
    aborted), whose issue is filed under [maxTemperature]. *)
Definition productSchema_parse (v : FormValues) : Parsed Data :=
  let inner := z_object v in
  match snd inner with
  | None => inner
  | Some data =>
      ((fst inner ++
        (if temperature_refinement data then []
         else [{| issue_path := "maxTemperature";
                  issue_message := "Min temperature must be less than max temperature" |}]))%list,
       Some data)
  end.

(** The resolver: the data when no issue was raised, the issues otherwise. *)
Definition productSchema (v : FormValues) : list Issue + Data :=
  match productSchema_parse v with
  | ([], Some data) => inr data
  | (issues, _) => inl issues
  end.

Inductive RegistrationState : Type := idle | registering | success | error.

(** The [useState] cells of [ProductRegistrationForm], and the [errors] of
    the form state. *)
Record State : Type := {
  registrationState : RegistrationState;
  registeredProduct : value;
  qrCodeUrl : value;
  error_message : value;
  errors : list Issue
}.

Definition initial : State :=
  {| registrationState := idle; registeredProduct := Null; qrCodeUrl := Null;
     error_message := Null; errors := [] |}.

Definition setRegistrationState (r : RegistrationState) (st : State) : State :=
  {| registrationState := r; registeredProduct := registeredProduct st;
     qrCodeUrl := qrCodeUrl st; error_message := error_message st; errors := errors st |}.
Definition setRegisteredProduct (p : value) (st : State) : State :=
  {| registrationState := registrationState st; registeredProduct := p;
     qrCodeUrl := qrCodeUrl st; error_message := error_message st; errors := errors st |}.
Definition setQrCodeUrl (u : value) (st : State) : State :=
  {| registrationState := registrationState st; registeredProduct := registeredProduct st;
     qrCodeUrl := u; error_message := error_message st; errors := errors st |}.
Definition setError (e : value) (st : State) : State :=
  {| registrationState := registrationState st; registeredProduct := registeredProduct st;
     qrCodeUrl := qrCodeUrl st; error_message := e; errors := errors st |}.
Definition setErrors (l : list Issue) (st : State) : State :=
  {| registrationState := registrationState st; registeredProduct := registeredProduct st;
     qrCodeUrl := qrCodeUrl st; error_message := error_message st; errors := l |}.

(** What [useWeb3] and [@/services/qr] provide: the connected account (or
    a falsy value), the wallet's [registerProduct] (or [undefined]), and
    [generateQRCode]; each call resolves or rejects as the collaborator
    decides. *)
Record Collaborators : Type := {
  account : value;
  registerProduct : option (value -> completion value);
  generateQRCode : value -> completion value
}.

Definition of_string (o : option string) : value :=
  match o with Some s => Str s | None => Undefined end.
Definition of_num (o : option num) : value :=
  match o with Some n => Num n | None => Undefined end.

Section Handlers.
Variable env : Env.
Variable ctx : Collaborators.

Definition productData (data : Data) : value :=
  Obj [("name", Str (data_name data));
       ("productId", Str (data_productId data));
       ("category", Str (data_category data));
       ("description", Str (data_description data));
       ("manufacturingDate", Str (data_manufacturingDate data));
       ("expiryDate", or (of_string (data_expiryDate data)) Null);
       ("originLocation", Str (data_originLocation data));
       ("minTemperature", or (of_num (data_minTemperature data)) Null);
       ("maxTemperature", or (of_num (data_maxTemperature data)) Null)].

(** The body of the inner [try] of step 2. *)
Definition anchor (register : value -> completion value) (data : Data) (apiResponse : value)
  : M (State * World) unit :=
  let submission := Obj [("productId", Str (data_productId data));
                         ("name", Str (data_name data));
                         ("manufacturer", account ctx)] in
  in_world (effect (log_call "registerProduct" submission)) ;;;
  txHash <- lift (register submission) ;;
  id <- lift (get apiResponse "id") ;;
  _ <- in_world (call_method "productsAPI" (productsAPI env)
                   "updateBlockchainHash" [id; txHash]) ;;
  ret tt.

(** Step 2 of [onSubmit]: [if (account && registerProduct) { try ... catch }]. *)
Definition blockchain_step (data : Data) (apiResponse : value) : M (State * World) unit :=
  match registerProduct ctx with
  | Some register =>
      if truthy (account ctx)
      then try_catch (anchor register data apiResponse)
             (fun blockchainError =>
                in_world (effect (console_error "Blockchain registration failed:"
                                    blockchainError)))
      else ret tt
  | None => ret tt
  end.

Definition onSubmit (data : Data) : M (State * World) unit :=
  try_catch
    (on_component (setRegistrationState registering) ;;;
     on_component (setError Null) ;;;
     apiResponse <- in_world (call_method "productsAPI" (productsAPI env)
                                "create" [productData data]) ;;
     blockchain_step data apiResponse ;;;
     id <- lift (get apiResponse "id") ;;
     let payload := Obj [("productId", Str (data_productId data)); ("id", id)] in
     in_world (effect (log_call "generateQRCode" payload)) ;;;
     qrCode <- lift (generateQRCode ctx payload) ;;
     on_component (setQrCodeUrl qrCode) ;;;
     on_component (setRegisteredProduct apiResponse) ;;;
     on_component (setRegistrationState success))
    (fun err =>
       in_world (effect (console_error "Registration error:" err)) ;;;
       response <- lift (get err "response") ;;
       message <- lift (get err "message") ;;
       on_component
         (setError (or (or (opt_get (opt_get response "data") "message") message)
                       (Str "Failed to register product"))) ;;;
       on_component (setRegistrationState error)).

(** [handleSubmit(onSubmit)]: the resolver runs first, and [onSubmit] is
    called with the parsed data only when it raised no issue. *)
Definition handleSubmit (values : FormValues) : M (State * World) unit :=
  match productSchema values with
  | inl issues => on_component (setErrors issues)
  | inr data => on_component (setErrors []) ;;; onSubmit data
  end.

End Handlers.

(** The anchor reference of a product record, as the detail page reads it. *)
Definition blockchainHash (product : value) : value := opt_get product "blockchainHash".

End Registration.

(** ** [ProductDetailPage]: the product, its checkpoints and the statistics *)

Module ProductDetailPage.

(** What the page takes from its surroundings: the clock, the [Date]
    parser (the time value of a date string, [None] for an invalid date),
    the number of retries of the query client, and the [isLoading] flag the
    query library reports for a disabled query. *)
Record Runtime : Type := {
  now : Z;
  Date_parse : string -> option Z;
  retry : nat;
  disabled_isLoading : bool
}.

(** The part of a [useQuery] result the page destructures. *)
Record QueryResult : Type := {
  data : value;
  isLoading : bool;
  query_error : value
}.

Inductive Phase : Type := Fetching | Settled.

(** A query function is run again after a failure, [retries] times. *)
Fixpoint attempt (queryFn : M World value) (retries : nat) : M World value :=
  try_catch queryFn
    (fun e => match retries with
              | O => throw e
              | S k => attempt queryFn k
              end).

Section Page.
Variable env : Env.
Variable rt : Runtime.

Definition useQuery (enabled : bool) (queryFn : M World value) (phase : Phase)
  : M World QueryResult :=
  if negb enabled
  then ret {| data := Undefined; isLoading := disabled_isLoading rt; query_error := Null |}
  else match phase with
       | Fetching => ret {| data := Undefined; isLoading := true; query_error := Null |}
       | Settled =>
           try_catch
             (d <- attempt queryFn (retry rt) ;;
              ret {| data := d; isLoading := false; query_error := Null |})
             (fun e => ret {| data := Undefined; isLoading := false; query_error := e |})
       end.

Definition productQuery (productId : value) : Phase -> M World QueryResult :=
  useQuery (truthy productId)
    (call_method "productsAPI" (productsAPI env) "getById" [productId]).

Definition checkpointsQuery (productId : value) : Phase -> M World QueryResult :=
  useQuery (truthy productId)
    (call_method "checkpointsAPI" (checkpointsAPI env) "getByProductId" [productId]).

(** [new Date(v).getTime()], [None] for an invalid date. *)
Definition new_Date (v : value) : option Z :=
  match v with
  | Undefined => None
  | Null => Some 0
  | Bool b => Some (if b then 1 else 0)
  | Num NaN | Num (Inf _) => None
  | Num (Fin q) =>
      if Qle_bool (Qabs q) (inject_Z 8640000000000000)
      then Some (Z.quot (Qnum q) (Z.pos (Qden q)))
      else None
  | Str s => Date_parse rt s
  | Arr _ | Obj _ => Date_parse rt (to_string (number_to_string env) v)
  end.

(** The "Days in Transit" expression. *)
Definition daysInTransit (product : value) : completion num :=
  match get product "createdAt" with
  | Throw e => Throw e
  | Normal createdAt =>
      if truthy createdAt
      then match new_Date createdAt with
           | Some t => Normal (Fin (inject_Z ((now rt - t) / (1000 * 60 * 60 * 24))))
           | None => Normal NaN
           end
      else Normal (Fin 0)
  end.

(** [v?.length || 0]. *)
Definition length_or_zero (v : value) : value :=
  let len := match v with
             | Arr items => Num (Fin (inject_Z (Z.of_nat (length items))))
             | Str s => Num (Fin (inject_Z (Z.of_nat (String.length s))))
             | Obj props => own props "length"
             | _ => Undefined
             end in
  or len (Num (Fin 0)).

(** [guard && <element/>] as a child of a JSX element.  When the guard is
    truthy the child is the element; otherwise the child is the guard
    itself, and React prints a number ([0], [NaN]) and renders nothing for
    [undefined], [null], [false] and the empty string. *)
Inductive Slot (A : Type) : Type :=
| Element (a : A)
| Printed (n : num)
| Nothing.
Arguments Element {A} a.
Arguments Printed {A} n.
Arguments Nothing {A}.

Definition falsy_child {A : Type} (guard : value) : Slot A :=
  match guard with
  | Num n => Printed n
  | _ => Nothing
  end.

Definition guarded {A : Type} (guard : value) (element : A) : Slot A :=
  if truthy guard then Element element else falsy_child guard.

(** One entry of the timeline: the values the JSX hands to React, before
    [formatDate] and [formatTemperature] of [@/utils/formatters] render
    them. *)
Record Card : Type := {
  card_key : value;
  card_location : value;
  card_timestamp : value;
  card_status : value;
  card_temperature : Slot value;
  card_coordinates : Slot (num * num);
  card_notes : Slot value;
  card_handledBy : Slot value;
  card_connector : bool
}.

(** The body of the arrow function given to [checkpoints.map]. *)
Definition card (total : nat) (index : nat) (checkpoint : value) : completion Card :=
  match checkpoint with
  | Undefined | Null =>
      Throw (type_error "Cannot read properties of undefined (reading 'id')")
  | _ =>
      let field := opt_get checkpoint in
      let coordinates :=
        if truthy (field "latitude")
        then if truthy (field "longitude")
             then match field "latitude", field "longitude" with
                  | Num a, Num b => Normal (Element (a, b))
                  | _, _ => Throw (type_error "toFixed is not a function")
                  end
             else Normal (falsy_child (field "longitude"))
        else Normal (falsy_child (field "latitude")) in
      match coordinates with
      | Throw e => Throw e
      | Normal c =>
          Normal {| card_key := field "id";
                    card_location := field "location";
                    card_timestamp := field "timestamp";
                    card_status := field "status";
                    card_temperature := guarded (field "temperature") (field "temperature");
                    card_coordinates := c;
                    card_notes := guarded (field "notes") (field "notes");
                    card_handledBy := guarded (field "handledBy") (field "handledBy");
                    card_connector := Z.of_nat index <? Z.of_nat total - 1 |}
      end
  end.

Fixpoint cards_from (total index : nat) (items : list value) : completion (list Card) :=
  match items with
  | [] => Normal []
  | x :: rest =>
      match card total index x with
      | Throw e => Throw e
      | Normal c =>
          match cards_from total (S index) rest with
          | Throw e => Throw e
          | Normal cs => Normal (c :: cs)
          end
      end
  end.

Inductive Timeline : Type :=
| TimelineLoading
| TimelineError (message : string)
| TimelineEmpty
| TimelineCards (cards : list Card).

(** The conditional chain under "Journey Timeline". *)
Definition timeline (checkpointsQ : QueryResult) : completion Timeline :=
  if isLoading checkpointsQ then Normal TimelineLoading
  else if truthy (query_error checkpointsQ) then Normal (TimelineError "Failed to load checkpoints")
  else
    let checkpoints := data checkpointsQ in
    if negb (truthy checkpoints) then Normal TimelineEmpty
    else match checkpoints with
         | Arr [] => Normal TimelineEmpty
         | Arr items =>
             match cards_from (length items) 0 items with
             | Throw e => Throw e
             | Normal cs => Normal (TimelineCards cs)
             end
         | Obj props =>
             match own props "length" with
             | Num (Fin q) =>
                 if Qeq_bool q 0 then Normal TimelineEmpty
                 else Throw (type_error "checkpoints.map is not a function")
             | _ => Throw (type_error "checkpoints.map is not a function")
             end
         | _ => Throw (type_error "checkpoints.map is not a function")
         end.

Record Statistics : Type := {
  totalCheckpoints : value;
  daysInTransitShown : num;
  temperatureAlerts : Z
}.

Inductive Page : Type :=
| Spinner
| ProductError (message : value)
| Detail (name status productId : value) (journey : Timeline) (stats : Statistics).

(** [data: { data: { product } = {} } = {}]. *)
Definition destructure_product (d : value) : completion value :=
  match d with
  | Undefined => Normal Undefined
  | Null => Throw (type_error "Cannot destructure property 'data' of null")
  | Obj props =>
      match own props "data" with
      | Undefined => Normal Undefined
      | Null => Throw (type_error "Cannot destructure property 'product' of null")
      | inner => Normal (opt_get inner "product")
      end
  | _ => Normal Undefined
  end.

(** The component body after the two queries. *)
Definition render (productQ checkpointsQ : QueryResult) : completion Page :=
  match destructure_product (data productQ) with
  | Throw e => Throw e
  | Normal product =>
      if isLoading productQ || isLoading checkpointsQ then Normal Spinner
      else if truthy (query_error productQ)
      then Normal (ProductError
                     (or (opt_get (opt_get (opt_get (query_error productQ) "response") "data") "message")
                         (Str "Failed to load product")))
      else
        match get product "name", timeline checkpointsQ, daysInTransit product with
        | Throw e, _, _ | _, Throw e, _ | _, _, Throw e => Throw e
        | Normal name, Normal journey, Normal days =>
            Normal (Detail name (opt_get product "status") (opt_get product "productId")
                      journey
                      {| totalCheckpoints := length_or_zero (data checkpointsQ);
                         daysInTransitShown := days;
                         temperatureAlerts := 0 |})
        end
  end.

Definition ProductDetailPage (productId : value) (productPhase checkpointsPhase : Phase)
  : M World (completion Page) :=
  productQ <- productQuery productId productPhase ;;
  checkpointsQ <- checkpointsQuery productId checkpointsPhase ;;
  ret (render productQ checkpointsQ).

End Page.

(** The checkpoints a rendered page shows. *)
Definition rendered_cards (p : completion Page) : list Card :=
  match p with
  | Normal (Detail _ _ _ (TimelineCards cs) _) => cs
  | _ => []
  end.

End ProductDetailPage.

(** * Vocabulary of the statements, and sample inputs *)

(** A remote service that gives the same answer to every request. *)
Definition answering (r : reply) : Env :=
  {| server := fun _ _ => r;
     window_defined := true;
     AUTH_TOKEN := "auth_token";
     USER_DATA := "user_data";
     FORBIDDEN := "You do not have permission to perform this action";
     NOT_FOUND := "Resource not found";
     SERVER_ERROR := "Server error";
     NETWORK_ERROR := "Network error";
     number_to_string := fun n =>
       match n with
       | NaN => "NaN"
       | Fin q => pretty (Qnum q / Z.pos (Qden q))
       | Inf negative => if negative then "-Infinity" else "Infinity"
       end |}.

Definition fresh_world : World :=
  {| requests := []; calls := []; console := []; localStorage := ∅;
     location_href := None |}.

Module VerifyTerms.
Import VerifyPage.

(** The lookup of [handleVerify]: the awaited [productsAPI.verify(productId)]. *)
Definition lookup (env : Env) (st : State) : M World value :=
  call_method "productsAPI" (productsAPI env) "verify" [Str (productId st)].

(** The view of a page that shows the "not found" panel for the input [s]. *)
Definition not_verified_view (s : string) : View :=
  {| input_value := s; button_disabled := false; button_label := "Verify";
     panel := NotFoundPanel |}.

(** The verify page after the user typed [s]. *)
Definition typed (s : string) : State := setProductId s initial.

(** A response body of the shape the verify endpoint documents, with the
    authenticity flag lowered. *)
Definition not_authentic_body : value :=
  Obj [("product", Obj [("id", Str "7"); ("name", Str "Vaccine X")]);
       ("isAuthentic", Bool false)].

(** The verify page showing the outcome of an earlier failed lookup, with
    the input replaced by three spaces. *)
Definition after_failed_lookup : State :=
  {| productId := "   "; scanning := false;
     verificationResult := Some notVerified;
     error := Str "Product not found" |}.

End VerifyTerms.

Module RegistrationTerms.
Import Registration.

(** The categories the form's [Select] offers. *)
Definition category_options : list string :=
  ["PHARMACEUTICALS"; "ELECTRONICS"; "LUXURY_GOODS"; "FOOD_BEVERAGE"; "AUTOMOTIVE"; "OTHER"].

(** A text field that is missing or shorter than [n]. *)
Definition too_short (n : nat) (o : option string) : bool :=
  match o with
  | None => true
  | Some s => Nat.ltb (String.length s) n
  end.

(** Both bounds given, neither of them zero, and the lower one not below the
    upper one. *)
Definition temperature_violated (v : FormValues) : bool :=
  match minTemperature v, maxTemperature v with
  | Some lo, Some hi => num_truthy lo && num_truthy hi && negb (num_lt lo hi)
  | _, _ => false
  end.

(** Every text field is a string. *)
Definition all_defined (v : FormValues) : bool :=
  match name v, productId v, category v, description v,
        manufacturingDate v, originLocation v with
  | Some _, Some _, Some _, Some _, Some _, Some _ => true
  | _, _, _, _, _, _ => false
  end.

(** The fields whose constraint the values violate, each under the key the
    validation error is filed under. *)
Definition violated (v : FormValues) : list string :=
  ((if too_short 3 (name v) then ["name"] else []) ++
   (if too_short 3 (productId v) then ["productId"] else []) ++
   (if too_short 1 (category v) then ["category"] else []) ++
   (if too_short 10 (description v) then ["description"] else []) ++
   (if too_short 1 (manufacturingDate v) then ["manufacturingDate"] else []) ++
   (if too_short 3 (originLocation v) then ["originLocation"] else []) ++
   (if temperature_violated v then ["maxTemperature"] else []))%list.

Definition tagged (issues : list Issue) (field : string) : Prop :=
  exists i, In i issues /\ issue_path i = field.

(** Sample form values: the end-to-end example of the specification. *)
Definition vaccine : FormValues :=
  {| name := Some "Vaccine X";
     productId := Some "PFZ-CV19-001";
     category := Some "PHARMACEUTICALS";
     description := Some "ten-character description";
     manufacturingDate := Some "2024-01-01";
     expiryDate := Some "";
     originLocation := Some "New York";
     minTemperature := None;
     maxTemperature := None |}.

Definition with_name (s : string) (v : FormValues) : FormValues :=
  {| name := Some s; productId := productId v; category := category v;
     description := description v; manufacturingDate := manufacturingDate v;
     expiryDate := expiryDate v; originLocation := originLocation v;
     minTemperature := minTemperature v; maxTemperature := maxTemperature v |}.

Definition with_category (s : string) (v : FormValues) : FormValues :=
  {| name := name v; productId := productId v; category := Some s;
     description := description v; manufacturingDate := manufacturingDate v;
     expiryDate := expiryDate v; originLocation := originLocation v;
     minTemperature := minTemperature v; maxTemperature := maxTemperature v |}.

Definition with_temperatures (lo hi : Q) (v : FormValues) : FormValues :=
  {| name := name v; productId := productId v; category := category v;
     description := description v; manufacturingDate := manufacturingDate v;
     expiryDate := expiryDate v; originLocation := originLocation v;
     minTemperature := Some (Fin lo); maxTemperature := Some (Fin hi) |}.

(** The record the service answers a successful create with. *)
Definition created : value :=
  Obj [("id", Str "42"); ("productId", Str "PFZ-CV19-001"); ("name", Str "Vaccine X");
       ("category", Str "PHARMACEUTICALS"); ("status", Str "CREATED")].

(** No wallet connected; the QR renderer answers with a data URL. *)
Definition anonymous : Collaborators :=
  {| account := Null; registerProduct := None;
     generateQRCode := fun _ => Normal (Str "data:image/png;base64,QR") |}.

(** The awaited [productsAPI.create(productData)] of step 1. *)
Definition create (env : Env) (data : Data) : M World value :=
  call_method "productsAPI" (productsAPI env) "create" [productData data].

(** The wallet is used: [account && registerProduct]. *)
Definition connected (ctx : Collaborators) : bool :=
  match registerProduct ctx with
  | Some _ => truthy (account ctx)
  | None => false
  end.

(** The argument of the wallet's [registerProduct]. *)
Definition submission (ctx : Collaborators) (data : Data) : value :=
  Obj [("productId", Str (data_productId data));
       ("name", Str (data_name data));
       ("manufacturer", account ctx)].

(** The collaborator calls of the blockchain step. *)
Definition anchor_calls (ctx : Collaborators) (data : Data) : list (string * value) :=
  if connected ctx then [("registerProduct", submission ctx data)] else [].

(** The payload handed to [generateQRCode]. *)
Definition qr_payload (data : Data) (id : value) : value :=
  Obj [("productId", Str (data_productId data)); ("id", id)].

(** The parsed data of the sample values. *)
Definition vaccine_data : Data :=
  {| data_name := "Vaccine X";
     data_productId := "PFZ-CV19-001";
     data_category := "PHARMACEUTICALS";
     data_description := "ten-character description";
     data_manufacturingDate := "2024-01-01";
     data_expiryDate := Some "";
     data_originLocation := "New York";
     data_minTemperature := None;
     data_maxTemperature := None |}.

(** A connected wallet whose [registerProduct] answers as given. *)
Definition wallet (answer : completion value) (qr : completion value) : Collaborators :=
  {| account := Str "0xA11CE";
     registerProduct := Some (fun _ => answer);
     generateQRCode := fun _ => qr |}.

Definition data_url : value := Str "data:image/png;base64,QR".

Definition an_error (message : string) : value :=
  Obj [("name", Str "Error"); ("message", Str message)].

(** The state [onSubmit] ends in when it reaches its last line. *)
Definition succeeded (apiResponse qrCode : value) (st : State) : State :=
  {| registrationState := success; registeredProduct := apiResponse;
     qrCodeUrl := qrCode; error_message := Null; errors := errors st |}.

(** The state [onSubmit] ends in when its [catch] handles [err]. *)
Definition failed (err : value) (st : State) : State :=
  {| registrationState := error; registeredProduct := registeredProduct st;
     qrCodeUrl := qrCodeUrl st;
     error_message := or (or (opt_get (opt_get (opt_get err "response") "data") "message")
                             (opt_get err "message"))
                         (Str "Failed to register product");
     errors := errors st |}.

End RegistrationTerms.

Module DetailTerms.
Import ProductDetailPage.

(** A checkpoint the arrow function of [checkpoints.map] renders without
    throwing: not [null] or [undefined], and with numeric coordinates when
    both are truthy. *)
Definition well_formed (checkpoint : value) : bool :=
  match checkpoint with
  | Undefined | Null => false
  | _ =>
      if truthy (opt_get checkpoint "latitude") && truthy (opt_get checkpoint "longitude")
      then match opt_get checkpoint "latitude", opt_get checkpoint "longitude" with
           | Num _, Num _ => true
           | _, _ => false
           end
      else true
  end.

(** A settled query that resolved to [d]. *)
Definition resolved (d : value) : QueryResult :=
  {| data := d; isLoading := false; query_error := Null |}.

(** The result of a query whose function threw [e] on every attempt. *)
Definition rejected (e : value) : QueryResult :=
  {| data := Undefined; isLoading := false; query_error := e |}.

(** A clock and a parser that knows four instants of January 2030. *)
Definition T1 : string := "2030-01-01T00:00:00.000Z".
Definition T2 : string := "2030-01-02T00:00:00.000Z".
Definition T3 : string := "2030-01-03T00:00:00.000Z".

Definition january (clock : Z) : Runtime :=
  {| now := clock;
     Date_parse := fun s =>
       if String.eqb s T1 then Some 1893456000000
       else if String.eqb s T2 then Some 1893542400000
       else if String.eqb s T3 then Some 1893628800000
       else None;
     retry := 3;
     disabled_isLoading := false |}.

Definition checkpoint_at (id timestamp location : string) : value :=
  Obj [("id", Str id); ("timestamp", Str timestamp); ("location", Str location);
       ("status", Str "IN_TRANSIT")].

(** Three checkpoints, received latest first. *)
Definition received : list value :=
  [checkpoint_at "c3" T3 "Chicago"; checkpoint_at "c1" T1 "New York";
   checkpoint_at "c2" T2 "Cleveland"].

(** A product created at [T1], as the product query delivers it. *)
Definition product_created_at_T1 : value :=
  Obj [("name", Str "Vaccine X"); ("productId", Str "PFZ-CV19-001");
       ("status", Str "CREATED"); ("createdAt", Str T1)].

Definition delivered (product : value) : QueryResult :=
  resolved (Obj [("data", Obj [("product", product)])]).

(** A service that holds the product 42 and its three checkpoints: it
    answers a request under [/api/checkpoints/] with the checkpoints, in
    the order T3, T1, T2, and any other request with the product. *)
Definition warehouse : Env :=
  {| server := fun _ r =>
       if String.prefix "/api/checkpoints/" (req_url r)
       then Response 200 (Arr received)
       else Response 200 (Obj [("data", Obj [("product", product_created_at_T1)])]);
     window_defined := true;
     AUTH_TOKEN := AUTH_TOKEN (answering NoResponse);
     USER_DATA := USER_DATA (answering NoResponse);
     FORBIDDEN := FORBIDDEN (answering NoResponse);
     NOT_FOUND := NOT_FOUND (answering NoResponse);
     SERVER_ERROR := SERVER_ERROR (answering NoResponse);
     NETWORK_ERROR := NETWORK_ERROR (answering NoResponse);
     number_to_string := number_to_string (answering NoResponse) |}.

End DetailTerms.

(** * The rest of the three files

    The exports of [api.js] no page above calls, and the handlers and views
    of the two components that stand beside [handleVerify] and [onSubmit]. *)

Module ApiRest.

Section Tables.
Variable env : Env.

(** [authAPI].  [logout] is the one method of the file that sends nothing:
    it only clears the two keys of [localStorage]. *)
Definition authAPI : gmap string method :=
  {[ "login" := (fun args =>
        api_call env "POST" "/api/auth/login"
          (Obj [("email", arg 0 args); ("password", arg 1 args)]));
     "register" := (fun args => api_call env "POST" "/api/auth/register" (arg 0 args));
     "me" := (fun _ => api_call env "GET" "/api/auth/me" Undefined);
     "logout" := (fun _ =>
        if window_defined env
        then effect (removeItem (AUTH_TOKEN env)) ;;;
             effect (removeItem (USER_DATA env)) ;;;
             ret Undefined
        else ret Undefined) ]}.

(** [userAPI]. *)
Definition userAPI : gmap string method :=
  {[ "getProfile" := (fun args =>
        api_call env "GET" (path env "/api/users/" (arg 0 args)) Undefined);
     "updateProfile" := (fun args =>
        api_call env "PATCH" (path env "/api/users/" (arg 0 args)) (arg 1 args));
     "updateWallet" := (fun args =>
        api_call env "PATCH" "/api/users/wallet" (Obj [("walletAddress", arg 0 args)])) ]}.

End Tables.

End ApiRest.

Module VerifyRest.
Import VerifyPage.

(** [handleScanQR]: an [alert], recorded in the log of calls. *)
Definition handleScanQR : M (State * World) unit :=
  in_world (effect (log_call "alert"
    (Str "QR Scanner would open here. Camera integration with @zxing/browser library will be added."))).

(** The [onClick] of "View Complete Product Journey":
    [router.push(`/products/${verificationResult.product.id}`)], the
    navigation being recorded as the new location. *)
Definition viewJourney (env : Env) : M (State * World) unit :=
  page <- read ;;
  match verificationResult (fst page) with
  | None => throw (type_error "Cannot read properties of null (reading 'product')")
  | Some r =>
      id <- lift (get (product r) "id") ;;
      in_world (effect (set_location (path env "/products/" id)))
  end.

(** The eight fields of the details grid, as the JSX reads them off
    [verificationResult.product]. *)
Definition details (body : value) : list (string * value) :=
  [("Product Name", opt_get body "name");
   ("Product ID", opt_get body "id");
   ("Manufacturer", opt_get body "manufacturer");
   ("Category", opt_get body "category");
   ("Current Status", opt_get body "status");
   ("Manufacturing Date", opt_get body "manufacturingDate");
   ("Checkpoints Recorded", opt_get body "checkpoints");
   ("Current Location", opt_get body "currentLocation")].

End VerifyRest.

Module RegistrationRest.
Import Registration.

(** [handleDownloadQR]: the click on the temporary link is recorded in the
    log of calls with the link's [href] and [download] attributes. *)
Definition handleDownloadQR (env : Env) : M (State * World) unit :=
  page <- read ;;
  let st := fst page in
  if negb (truthy (qrCodeUrl st)) then ret tt
  else
    in_world (effect (log_call "link.click"
      (Obj [("href", qrCodeUrl st);
            ("download",
             Str (to_string (number_to_string env)
                    (or (opt_get (registeredProduct st) "productId") (Str "product"))
                  ++ "-qr-code.png"))]))).

(** [handleRegisterAnother]; [reset()] empties the errors of the form. *)
Definition handleRegisterAnother : M (State * World) unit :=
  on_component (setErrors []) ;;;
  on_component (setRegistrationState idle) ;;;
  on_component (setRegisteredProduct Null) ;;;
  on_component (setQrCodeUrl Null) ;;;
  on_component (setError Null).

(** The [onClick] of "View Product Details":
    [window.location.href = `/products/${registeredProduct?.id}`]. *)
Definition viewProductDetails (env : Env) : M (State * World) unit :=
  page <- read ;;
  in_world (effect (set_location
    (path env "/products/" (opt_get (registeredProduct (fst page)) "id")))).

(** What the component returns: the success card, or the form. *)
Inductive View : Type :=
| SuccessView (name productId id category : value) (qrCode : option value)
| FormView (banner : option value) (fieldErrors : list Issue)
    (buttonsDisabled : bool) (submitLabel : string).

Definition render (isSubmitting : bool) (st : State) : View :=
  match registrationState st with
  | success =>
      SuccessView (opt_get (registeredProduct st) "name")
        (opt_get (registeredProduct st) "productId")
        (opt_get (registeredProduct st) "id")
        (opt_get (registeredProduct st) "category")
        (if truthy (qrCodeUrl st) then Some (qrCodeUrl st) else None)
  | other =>
      FormView
        (match other with
         | error => if truthy (error_message st) then Some (error_message st) else None
         | _ => None
         end)
        (errors st)
        (isSubmitting || match other with registering => true | _ => false end)
        (match other with
         | registering => "Registering on Blockchain..."
         | _ => "Register Product"
         end)
  end.

End RegistrationRest.

Module ApiTerms.

(** The request a call through the instance hands to the HTTP client
    from the world [w]. *)
Definition sent (env : Env) (method url : string) (payload : value) (w : World) : request :=
  {| req_method := method; req_url := url; req_payload := payload;
     req_authorization := request_interceptor env w |}.

(** What the network does with it. *)
Definition reply_to (env : Env) (method url : string) (payload : value) (w : World) : reply :=
  server env (length (requests w)) (sent env method url payload w).

Definition is_2xx (status : Z) : bool := (200 <=? status) && (status <? 300).

(** The message Axios gives an error for an answer outside 2xx. *)
Definition default_message (status : Z) : value :=
  Str ("Request failed with status code " ++ pretty status).

(** The [response] property of such an error. *)
Definition error_response (status : Z) (data : value) : value :=
  Obj [("status", Num (Fin (inject_Z status))); ("data", data)].

(** A browser session with a stored token, a stored user and an unrelated
    key. *)
Definition signed_in : World :=
  {| requests := []; calls := []; console := [];
     localStorage := {[ "auth_token" := "jwt-abc"; "user_data" := "{}"; "theme" := "dark" ]};
     location_href := Some "/dashboard" |}.

(** The property names every object literal inherits from
    [Object.prototype]. *)
Definition inherited_names : list string :=
  ["constructor"; "hasOwnProperty"; "isPrototypeOf"; "propertyIsEnumerable";
   "toLocaleString"; "toString"; "valueOf"; "__proto__";
   "__defineGetter__"; "__defineSetter__"; "__lookupGetter__"; "__lookupSetter__"].

End ApiTerms.

Module RegistrationMoreTerms.
Import Registration.

(** The parsed data carry the values of the form, field by field. *)
Definition carries (v : FormValues) (d : Data) : Prop :=
  name v = Some (data_name d)
  /\ productId v = Some (data_productId d)
  /\ category v = Some (data_category d)
  /\ description v = Some (data_description d)
  /\ manufacturingDate v = Some (data_manufacturingDate d)
  /\ expiryDate v = data_expiryDate d
  /\ originLocation v = Some (data_originLocation d)
  /\ minTemperature v = data_minTemperature d
  /\ maxTemperature v = data_maxTemperature d.

Definition is_number (o : option num) : bool :=
  match o with Some NaN => false | _ => true end.

(** Every check of the schema, on the parsed data. *)
Definition satisfies (d : Data) : bool :=
  (3 <=? String.length (data_name d))%nat
  && (3 <=? String.length (data_productId d))%nat
  && (1 <=? String.length (data_category d))%nat
  && (10 <=? String.length (data_description d))%nat
  && (1 <=? String.length (data_manufacturingDate d))%nat
  && (3 <=? String.length (data_originLocation d))%nat
  && is_number (data_minTemperature d)
  && is_number (data_maxTemperature d)
  && temperature_refinement d.

(** An optional value as [productData] sends it: [null] unless truthy. *)
Definition string_or_null (o : option string) : value :=
  match o with
  | Some s => if String.eqb s "" then Null else Str s
  | None => Null
  end.

Definition number_or_null (o : option num) : value :=
  match o with
  | Some n => if num_truthy n then Num n else Null
  | None => Null
  end.

End RegistrationMoreTerms.

Module DetailMoreTerms.
Import ProductDetailPage.

(** A service that never lets a request succeed: every answer is outside
    2xx, or there is no answer. *)
Definition always_fails (env : Env) : Prop :=
  forall n r,
    match server env n r with
    | Response status _ => ApiTerms.is_2xx status = false
    | NoResponse => True
    | SetupFailure _ => False
    end.

(** The same runtime at another time of the clock. *)
Definition at_time (clock : Z) (rt : Runtime) : Runtime :=
  {| now := clock; Date_parse := Date_parse rt; retry := retry rt;
     disabled_isLoading := disabled_isLoading rt |}.

End DetailMoreTerms.

(** * Properties *)

(** ** Strings *)

Lemma trimEnd_keeps (c : ascii) (s : string) :
  is_space c = false -> trimEnd (String c s) <> EmptyString.
Proof.
  intros Hc. simpl. destruct (trimEnd s); [rewrite Hc|]; discriminate.
Qed.

Lemma trimStart_blank (s : string) : blank s = true -> trimStart s = EmptyString.
Proof.
  induction s as [|c s IH]; simpl; [reflexivity|].
  destruct (is_space c); simpl; [exact IH | discriminate].
Qed.

Lemma trimStart_not_blank (s : string) :
  blank s = false ->
  exists c rest, trimStart s = String c rest /\ is_space c = false.
Proof.
  induction s as [|c s IH]; simpl; [discriminate|].
  destruct (is_space c) eqn:Hc; simpl; [exact IH|].
  intros _. exists c, s. split; [reflexivity | exact Hc].
Qed.

(** [!s.trim()] holds exactly for the strings made of white space. *)
Lemma trim_falsy_iff_blank (s : string) : negb (truthy (Str (trim s))) = blank s.
Proof.
  unfold trim. destruct (blank s) eqn:Hb.
  - rewrite (trimStart_blank _ Hb). reflexivity.
  - destruct (trimStart_not_blank _ Hb) as (c & rest & -> & Hc).
    pose proof (trimEnd_keeps c rest Hc) as Hne.
    destruct (trimEnd (String c rest)); [congruence | reflexivity].
Qed.

(** ** The service layer *)

Lemma productsAPI_verify env :
  productsAPI env !! "verify"
  = Some (fun args => api_call env "GET" (path env "/api/products/verify/" (arg 0 args)) Undefined).
Proof. reflexivity. Qed.

Lemma productsAPI_create env :
  productsAPI env !! "create"
  = Some (fun args => api_call env "POST" "/api/products" (arg 0 args)).
Proof. reflexivity. Qed.

Lemma productsAPI_updateBlockchainHash env :
  productsAPI env !! "updateBlockchainHash" = None.
Proof. reflexivity. Qed.

Lemma checkpointsAPI_getByProductId env :
  checkpointsAPI env !! "getByProductId" = None.
Proof. reflexivity. Qed.

Lemma checkpointsAPI_getByProduct env :
  is_Some (checkpointsAPI env !! "getByProduct").
Proof. eexists. reflexivity. Qed.

(** Whatever [api_call] rejects with is an Axios error object. *)
Lemma api_call_rejection env method url payload w w' e :
  api_call env method url payload w = (w', Throw e) ->
  exists response made message, e = axios_error response made message.
Proof.
  unfold api_call, response_error_interceptor, bind, effect, throw, ret.
  destruct (server env _ _) as [status body | | msg].
  - destruct ((200 <=? status) && (status <? 300))%bool; [discriminate|].
    destruct (status =? 401).
    { destruct (window_defined env); intros [= _ <-]; eauto. }
    destruct (status =? 403); [intros [= _ <-]; eauto|].
    destruct (status =? 404); [intros [= _ <-]; eauto|].
    destruct (status =? 500); intros [= _ <-]; eauto.
  - intros [= _ <-]; eauto.
  - intros [= _ <-]; eauto.
Qed.

(** ** Verification *)

Module VerifyProps.
Import VerifyPage VerifyTerms.

Lemma handleVerify_blank env st w :
  blank (productId st) = true -> handleVerify env (st, w) = ((st, w), Normal tt).
Proof.
  intros Hb. unfold handleVerify, bind, read. cbn [fst].
  rewrite trim_falsy_iff_blank, Hb. reflexivity.
Qed.

Lemma handleVerify_resolved env st w w' body :
  blank (productId st) = false ->
  lookup env st w = (w', Normal body) ->
  handleVerify env (st, w)
  = ((setScanning false
        (setVerificationResult
           (if truthy body then {| verified := true; product := body |} else notVerified)
           (setError Null (setScanning true st))), w'), Normal tt).
Proof.
  intros Hb Hl. unfold lookup in Hl.
  unfold handleVerify, bind, read. cbn [fst].
  rewrite trim_falsy_iff_blank, Hb. cbn [negb].
  unfold try_finally, try_catch, bind, in_world, on_component. cbn [fst snd].
  rewrite Hl. destruct (truthy body); reflexivity.
Qed.

Lemma lookup_rejection env st w w' e :
  lookup env st w = (w', Throw e) ->
  exists response made message, e = axios_error response made message.
Proof.
  unfold lookup, call_method. rewrite productsAPI_verify.
  apply api_call_rejection.
Qed.

Lemma handleVerify_rejected env st w w' err :
  blank (productId st) = false ->
  lookup env st w = (w', Throw err) ->
  handleVerify env (st, w)
  = ((setScanning false
        (setError (or (opt_get (opt_get (opt_get err "response") "data") "message")
                      (Str "Product not found"))
           (setVerificationResult notVerified
              (setError Null (setScanning true st)))),
      console_error "Verification error:" err w'), Normal tt).
Proof.
  intros Hb Hl.
  destruct (lookup_rejection _ _ _ _ _ Hl) as (response & made & message & ->).
  unfold lookup in Hl.
  unfold handleVerify, bind, read. cbn [fst].
  rewrite trim_falsy_iff_blank, Hb. cbn [negb].
  unfold try_finally, try_catch, bind, in_world, on_component. cbn [fst snd].
  rewrite Hl. reflexivity.
Qed.





(** C2.  The verdict of [handleVerify] is the truthiness of the resolved
    body and nothing else: every truthy body is reported as verified and
    shown as the product, whatever its [isAuthentic] property holds --
    [false] and absent included. *)
Theorem truthy_body_is_verified env st w w' body :
  blank (productId st) = false ->
  lookup env st w = (w', Normal body) ->
  truthy body = true ->
  exists st',
    handleVerify env (st, w) = ((st', w'), Normal tt)
    /\ verificationResult st' = Some {| verified := true; product := body |}
    /\ panel (render st') = VerifiedPanel (Some body).
Proof.
  intros Hb Hl Ht.
  rewrite (handleVerify_resolved _ _ _ _ _ Hb Hl), Ht.
  eexists. split; [reflexivity|]. split; [reflexivity|].
  unfold render. cbn. rewrite Ht. reflexivity.
Qed.

Lemma truthy_body_is_verified_witness :
  truthy (opt_get not_authentic_body "isAuthentic") = false
  /\ exists st',
       handleVerify (answering (Response 200 not_authentic_body))
         (typed "PFZ-CV19-001", fresh_world)
       = ((st', fst (lookup (answering (Response 200 not_authentic_body))
                       (typed "PFZ-CV19-001") fresh_world)), Normal tt)
       /\ verificationResult st' = Some {| verified := true; product := not_authentic_body |}
       /\ panel (render st') = VerifiedPanel (Some not_authentic_body).
Proof.
  split; [reflexivity|].
  apply (truthy_body_is_verified (answering (Response 200 not_authentic_body))
           (typed "PFZ-CV19-001") fresh_world).
  - reflexivity.
  - vm_compute. reflexivity.
  - reflexivity.
Defined.

(** C7, as the code has it.  On an empty or blank input [handleVerify]
    returns at once: no request is sent, nothing is thrown, and no cell of
    the page state changes -- no error is recorded and the verification
    result shown before stays as it was. *)
Theorem blank_input_is_ignored env st w :
  blank (productId st) = true ->
  handleVerify env (st, w) = ((st, w), Normal tt).
Proof. apply handleVerify_blank. Qed.

Lemma blank_input_is_ignored_witness :
  handleVerify (answering NoResponse) (typed "", fresh_world)
  = ((typed "", fresh_world), Normal tt).
Proof.
  apply (blank_input_is_ignored (answering NoResponse) (typed "") fresh_world).
  reflexivity.
Defined.

(** C7, as stated, fails: on the input of three spaces, entered while the
    page shows the outcome of a failed lookup, the handler completes
    normally, records no error of its own (the state, its [error] cell
    included, is unchanged), and the page goes on showing the "not found"
    panel, which is the not-verified outcome. *)
Lemma blank_input_raises_no_invalid_input_error :
  blank (productId after_failed_lookup) = true
  /\ handleVerify (answering NoResponse) (after_failed_lookup, fresh_world)
     = ((after_failed_lookup, fresh_world), Normal tt)
  /\ panel (render after_failed_lookup) = NotFoundPanel
  /\ panel (render (fst (fst (handleVerify (answering NoResponse)
                                (after_failed_lookup, fresh_world)))))
     = panel (not_verified_view "   ").
Proof. vm_compute. repeat split. Qed.

End VerifyProps.

(** ** Registration: validation *)

Module RegistrationProps.
Import Registration RegistrationTerms.

Lemma z_string_min_paths n message path o :
  map issue_path (fst (z_string_min n message path o))
  = if too_short n o then [path] else [].
Proof.
  destruct o as [s|]; simpl; [|reflexivity].
  destruct (Nat.ltb (String.length s) n); reflexivity.
Qed.

Lemma tagged_app_l issues more field : tagged issues field -> tagged (issues ++ more) field.
Proof. intros (i & Hi & Hp). exists i. split; [apply in_or_app; left|]; assumption. Qed.

Lemma tagged_app_r issues more field : tagged more field -> tagged (issues ++ more) field.
Proof. intros (i & Hi & Hp). exists i. split; [apply in_or_app; right|]; assumption. Qed.

Lemma tagged_paths issues field : In field (map issue_path issues) -> tagged issues field.
Proof.
  intros H. apply in_map_iff in H as (i & Hp & Hi). exists i. split; assumption.
Qed.

(** The resolver fails exactly with the issues of the parse, when there are
    some. *)
Lemma productSchema_issues v :
  fst (productSchema_parse v) <> [] ->
  productSchema v = inl (fst (productSchema_parse v)).
Proof.
  unfold productSchema. destruct (productSchema_parse v) as [[|i issues] o]; simpl.
  - congruence.
  - reflexivity.
Qed.

Lemma productSchema_parse_keeps_object_issues v field :
  tagged (fst (z_object v)) field -> tagged (fst (productSchema_parse v)) field.
Proof.
  unfold productSchema_parse. destruct (snd (z_object v)); simpl; [apply tagged_app_l | auto].
Qed.

Lemma z_object_paths v :
  map issue_path (fst (z_object v))
  = ((if too_short 3 (name v) then ["name"] else []) ++
     (if too_short 3 (productId v) then ["productId"] else []) ++
     (if too_short 1 (category v) then ["category"] else []) ++
     (if too_short 10 (description v) then ["description"] else []) ++
     (if too_short 1 (manufacturingDate v) then ["manufacturingDate"] else []) ++
     (if too_short 3 (originLocation v) then ["originLocation"] else []) ++
     (match minTemperature v with Some NaN => ["minTemperature"] | _ => [] end) ++
     (match maxTemperature v with Some NaN => ["maxTemperature"] | _ => [] end))%list.
Proof.
  unfold z_object. cbn [fst].
  rewrite !map_app, !z_string_min_paths. cbn [z_string_optional fst map app].
  do 6 f_equal.
  unfold z_coerce_number_optional.
  destruct (minTemperature v) as [[]|], (maxTemperature v) as [[]|]; reflexivity.
Qed.

Lemma violated_cases v field :
  In field (violated v) ->
  In field (map issue_path (fst (z_object v)))
  \/ (field = "maxTemperature" /\ temperature_violated v = true).
Proof.
  unfold violated. rewrite z_object_paths, !in_app_iff.
  destruct (temperature_violated v).
  - cbn [In]. intuition.
  - cbn [In]. intuition.
Qed.

(** An object with an undefined text field raises an issue. *)
Lemma undefined_field_raises v : all_defined v = false -> fst (z_object v) <> [].
Proof.
  intros Hu Hnil.
  pose proof (z_object_paths v) as Hp. rewrite Hnil in Hp. cbn [map] in Hp.
  symmetry in Hp. repeat (apply app_eq_nil in Hp as [? Hp]).
  unfold all_defined in Hu.
  destruct (name v), (productId v), (category v), (description v),
    (manufacturingDate v), (originLocation v);
    cbn [too_short] in *; congruence.
Qed.

(** With every text field defined and the bounds violated, the object
    parses and the refinement files its issue under [maxTemperature]. *)
Lemma refinement_raises v :
  all_defined v = true -> temperature_violated v = true ->
  tagged (fst (productSchema_parse v)) "maxTemperature".
Proof.
  unfold all_defined, temperature_violated, productSchema_parse, z_object.
  intros Hd Ht.
  destruct (name v), (productId v), (category v), (description v),
    (manufacturingDate v), (originLocation v); try discriminate Hd.
  destruct (minTemperature v) as [lo|]; [|discriminate Ht].
  destruct (maxTemperature v) as [hi|]; [|discriminate Ht].
  apply andb_prop in Ht as [Ht Hlt]. apply andb_prop in Ht as [Hlo Hhi].
  destruct lo as [|lo|nlo]; [discriminate Hlo| |];
    (destruct hi as [|hi|nhi]; [discriminate Hhi| |]);
    cbn [z_string_min z_string_optional z_coerce_number_optional snd fst mbind option_bind];
    unfold temperature_refinement;
    cbn [data_minTemperature data_maxTemperature];
    rewrite Hlo, Hhi; cbn [andb];
    apply negb_true_iff in Hlt; rewrite Hlt;
    apply tagged_app_r; eexists; (split; [left; reflexivity | reflexivity]).
Qed.

(** C3, as the code has it.  When the values violate a constraint the
    schema checks -- name, product id or origin shorter than 3 characters,
    description shorter than 10, category or manufacturing date empty, any
    of these missing, or two temperature bounds that are both non-zero with
    the lower one not below the upper one -- the resolver fails with a
    non-empty list of issues, [handleSubmit] stores them and returns without
    calling [onSubmit]: the world, and so the log of requests, is untouched.
    The issues carry the key of the violated field; for the temperature rule
    that key is [maxTemperature], filed when every text field is a string. *)
Theorem invalid_values_are_rejected_before_any_call env ctx v st w field :
  In field (violated v) ->
  exists issues,
    productSchema v = inl issues
    /\ issues <> []
    /\ (all_defined v = true \/ field <> "maxTemperature" -> tagged issues field)
    /\ handleSubmit env ctx v (st, w) = ((setErrors issues st, w), Normal tt).
Proof.
  intros Hin.
  assert (Hsome : fst (productSchema_parse v) <> []
                  /\ (all_defined v = true \/ field <> "maxTemperature" ->
                      tagged (fst (productSchema_parse v)) field)).
  { destruct (violated_cases _ _ Hin) as [Hobj | [-> Htemp]].
    - apply tagged_paths, productSchema_parse_keeps_object_issues in Hobj.
      split; [|intros _; exact Hobj].
      destruct Hobj as (i & Hi & _). intros Hnil. rewrite Hnil in Hi. exact Hi.
    - destruct (all_defined v) eqn:Hd.
      + pose proof (refinement_raises v Hd Htemp) as Htag.
        split; [|intros _; exact Htag].
        destruct Htag as (i & Hi & _). intros Hnil. rewrite Hnil in Hi. exact Hi.
      + split; [|intros [H | H]; congruence].
        pose proof (undefined_field_raises v Hd) as Hne.
        unfold productSchema_parse. destruct (snd (z_object v)); cbn [fst]; [|exact Hne].
        intros Hnil. apply app_eq_nil in Hnil as [Hnil _]. contradiction. }
  destruct Hsome as [Hne Htag].
  exists (fst (productSchema_parse v)).
  pose proof (productSchema_issues v Hne) as Hres.
  split; [exact Hres|]. split; [exact Hne|]. split; [exact Htag|].
  unfold handleSubmit. rewrite Hres. reflexivity.
Qed.

Lemma invalid_values_are_rejected_before_any_call_witness :
  exists issues,
    productSchema (with_temperatures 8 2 (with_name "Va" vaccine)) = inl issues
    /\ issues <> []
    /\ (all_defined (with_temperatures 8 2 (with_name "Va" vaccine)) = true
        \/ "maxTemperature" <> "maxTemperature" -> tagged issues "maxTemperature")
    /\ handleSubmit (answering (Response 201 created)) anonymous
         (with_temperatures 8 2 (with_name "Va" vaccine)) (initial, fresh_world)
       = ((setErrors issues initial, fresh_world), Normal tt).
Proof.
  apply (invalid_values_are_rejected_before_any_call
           (answering (Response 201 created)) anonymous
           (with_temperatures 8 2 (with_name "Va" vaccine)) initial fresh_world
           "maxTemperature").
  vm_compute. right. left. reflexivity.
Defined.

(** C3, as stated, fails twice.  A category outside the enumeration passes
    the schema, which only asks for a non-empty string, and the create
    request is sent.  So do the bounds 5 and 0: a bound equal to zero
    switches the comparison off. *)
Lemma schema_accepts_unlisted_category_and_zero_bound :
  ~ In "GADGETS" category_options
  /\ (exists data, productSchema (with_category "GADGETS" vaccine) = inr data)
  /\ map req_method
       (requests (snd (fst (handleSubmit (answering (Response 201 created)) anonymous
                              (with_category "GADGETS" vaccine) (initial, fresh_world)))))
     = ["POST"]
  /\ num_lt (Fin 5) (Fin 0) = false
  /\ (exists data, productSchema (with_temperatures 5 0 vaccine) = inr data)
  /\ map req_method
       (requests (snd (fst (handleSubmit (answering (Response 201 created)) anonymous
                              (with_temperatures 5 0 vaccine) (initial, fresh_world)))))
     = ["POST"].
Proof.
  split.
  { unfold category_options. cbn [In]. intros H.
    repeat (destruct H as [H | H]; [discriminate H|]). exact H. }
  split; [eexists; vm_compute; reflexivity|].
  split; [vm_compute; reflexivity|].
  split; [reflexivity|].
  split; [eexists; vm_compute; reflexivity|].
  vm_compute; reflexivity.
Qed.

(** ** Registration: the three steps of [onSubmit] *)

(** The blockchain step never aborts and never sends a request: whatever
    the wallet answers, the update it then attempts is a call of
    [productsAPI.updateBlockchainHash], which [api.js] does not define, and
    the inner [catch] swallows the [TypeError]. *)
Lemma blockchain_step_continues env ctx data apiResponse st w :
  exists w',
    blockchain_step env ctx data apiResponse (st, w) = ((st, w'), Normal tt)
    /\ requests w' = requests w
    /\ calls w' = (calls w ++ anchor_calls ctx data)%list.
Proof.
  unfold blockchain_step, anchor_calls, connected.
  destruct (registerProduct ctx) as [register|];
    [|exists w; repeat split; symmetry; apply app_nil_r].
  destruct (truthy (account ctx));
    [|exists w; repeat split; symmetry; apply app_nil_r].
  unfold anchor, try_catch, bind, in_world, effect, lift, ret. cbn [fst snd].
  fold (submission ctx data).
  destruct (register _) as [txHash | e]; [|eexists; repeat split].
  destruct (get apiResponse "id") as [id | e]; [|eexists; repeat split].
  unfold call_method. rewrite productsAPI_updateBlockchainHash.
  unfold throw. cbn [fst snd]. eexists; repeat split.
Qed.

(** When the wallet resolves, the update of the record is attempted and
    throws: the step logs the [TypeError] and sends nothing. *)
Lemma anchored_update_throws env ctx data apiResponse st w register txHash id :
  registerProduct ctx = Some register ->
  truthy (account ctx) = true ->
  register (submission ctx data) = Normal txHash ->
  get apiResponse "id" = Normal id ->
  exists w',
    blockchain_step env ctx data apiResponse (st, w) = ((st, w'), Normal tt)
    /\ requests w' = requests w
    /\ console w'
       = (console w ++
          [("Blockchain registration failed:",
            type_error "productsAPI.updateBlockchainHash is not a function")])%list.
Proof.
  intros Hr Ha Htx Hid. unfold blockchain_step. rewrite Hr, Ha.
  unfold anchor, try_catch, bind, in_world, effect, lift, ret. cbn [fst snd].
  fold (submission ctx data). rewrite Htx, Hid.
  unfold call_method. rewrite productsAPI_updateBlockchainHash.
  unfold throw. cbn [fst snd]. eexists; repeat split.
Qed.

Lemma onSubmit_create_rejected env ctx data st w w1 err :
  create env data w = (w1, Throw err) ->
  onSubmit env ctx data (st, w)
  = ((failed err (setError Null st), console_error "Registration error:" err w1), Normal tt).
Proof.
  intros Hc.
  assert (exists response made message, err = axios_error response made message)
    as (response & made & message & ->).
  { unfold create, call_method in Hc. rewrite productsAPI_create in Hc.
    eapply api_call_rejection; exact Hc. }
  unfold create in Hc.
  unfold onSubmit, try_catch, bind, on_component, in_world. cbn [fst snd].
  rewrite Hc. reflexivity.
Qed.

Lemma onSubmit_rendered env ctx data st w w1 apiResponse id qrCode :
  create env data w = (w1, Normal apiResponse) ->
  get apiResponse "id" = Normal id ->
  generateQRCode ctx (qr_payload data id) = Normal qrCode ->
  exists w',
    onSubmit env ctx data (st, w) = ((succeeded apiResponse qrCode st, w'), Normal tt)
    /\ requests w' = requests w1
    /\ calls w'
       = (calls w1 ++ anchor_calls ctx data ++ [("generateQRCode", qr_payload data id)])%list.
Proof.
  intros Hc Hid Hqr. unfold create in Hc.
  unfold onSubmit, try_catch, bind, on_component, in_world. cbn [fst snd].
  rewrite Hc. cbn [fst snd].
  destruct (blockchain_step_continues env ctx data apiResponse
              (setError Null (setRegistrationState registering st)) w1)
    as (w2 & -> & Hreq & Hcalls).
  unfold lift, effect. rewrite Hid. cbn [fst snd].
  unfold qr_payload in Hqr. rewrite Hqr.
  eexists. split; [reflexivity|]. split; [exact Hreq|].
  cbn [log_call calls]. rewrite Hcalls, <- app_assoc. reflexivity.
Qed.

Lemma onSubmit_not_rendered env ctx data st w w1 apiResponse id props :
  create env data w = (w1, Normal apiResponse) ->
  get apiResponse "id" = Normal id ->
  generateQRCode ctx (qr_payload data id) = Throw (Obj props) ->
  exists w',
    onSubmit env ctx data (st, w) = ((failed (Obj props) (setError Null st), w'), Normal tt)
    /\ requests w' = requests w1.
Proof.
  intros Hc Hid Hqr. unfold create in Hc.
  unfold onSubmit, try_catch, bind, on_component, in_world. cbn [fst snd].
  rewrite Hc. cbn [fst snd].
  destruct (blockchain_step_continues env ctx data apiResponse
              (setError Null (setRegistrationState registering st)) w1)
    as (w2 & -> & Hreq & _).
  unfold lift, effect. rewrite Hid. cbn [fst snd].
  unfold qr_payload in Hqr. rewrite Hqr.
  eexists. split; [reflexivity|]. exact Hreq.
Qed.

(** C4, as the code has it.  With a wallet connected, a create that
    resolved to a record and a QR code that was rendered, [onSubmit] calls
    the wallet and ends in the [success] state whatever the wallet's
    [registerProduct] did -- rejected or resolved to a transaction hash --
    and the registered product is the create response itself: its
    [blockchainHash] is the one that response carried, and the hash the
    wallet returned is not attached. *)
Theorem anchoring_leaves_the_registered_product_alone
    env ctx data st w w1 apiResponse id qrCode register :
  registerProduct ctx = Some register ->
  truthy (account ctx) = true ->
  create env data w = (w1, Normal apiResponse) ->
  get apiResponse "id" = Normal id ->
  generateQRCode ctx (qr_payload data id) = Normal qrCode ->
  exists st' w',
    onSubmit env ctx data (st, w) = ((st', w'), Normal tt)
    /\ calls w'
       = (calls w1 ++ [("registerProduct", submission ctx data);
                       ("generateQRCode", qr_payload data id)])%list
    /\ registrationState st' = success
    /\ registeredProduct st' = apiResponse
    /\ blockchainHash (registeredProduct st') = blockchainHash apiResponse.
Proof.
  intros Hr Ha Hc Hid Hqr.
  destruct (onSubmit_rendered env ctx data st w w1 apiResponse id qrCode Hc Hid Hqr)
    as (w' & Hrun & _ & Hcalls).
  exists (succeeded apiResponse qrCode st), w'.
  split; [exact Hrun|]. split; [|repeat split].
  rewrite Hcalls. unfold anchor_calls, connected. rewrite Hr, Ha. reflexivity.
Qed.

Lemma anchoring_leaves_the_registered_product_alone_witness :
  exists st' w',
    onSubmit (answering (Response 201 created))
      (wallet (Throw (an_error "user rejected the transaction")) (Normal data_url))
      vaccine_data (initial, fresh_world)
    = ((st', w'), Normal tt)
    /\ calls w'
       = (calls (fst (create (answering (Response 201 created)) vaccine_data fresh_world))
          ++ [("registerProduct",
               submission (wallet (Throw (an_error "user rejected the transaction"))
                             (Normal data_url)) vaccine_data);
              ("generateQRCode", qr_payload vaccine_data (Str "42"))])%list
    /\ registrationState st' = success
    /\ registeredProduct st' = created
    /\ blockchainHash (registeredProduct st') = blockchainHash created.
Proof.
  apply (anchoring_leaves_the_registered_product_alone
           (answering (Response 201 created))
           (wallet (Throw (an_error "user rejected the transaction")) (Normal data_url))
           vaccine_data initial fresh_world
           (fst (create (answering (Response 201 created)) vaccine_data fresh_world))
           created (Str "42") data_url
           (fun _ => Throw (an_error "user rejected the transaction"))).
  - reflexivity.
  - reflexivity.
  - vm_compute. reflexivity.
  - reflexivity.
  - reflexivity.
Defined.

(** C4, as stated, fails.  When the wallet resolves to the hash ["0xabc"]
    the registration succeeds and the registered product carries no
    [blockchainHash] at all, so it is not the value the wallet returned.
    And when the wallet rejects, the run still depends on the QR code: with
    a renderer that rejects too, it ends in the [error] state. *)
Lemma anchor_reference_is_not_returned :
  (let st' := fst (fst (onSubmit (answering (Response 201 created))
                          (wallet (Normal (Str "0xabc")) (Normal data_url))
                          vaccine_data (initial, fresh_world))) in
   registrationState st' = success
   /\ blockchainHash (registeredProduct st') = Undefined
   /\ blockchainHash (registeredProduct st') <> Str "0xabc")
  /\ registrationState
       (fst (fst (onSubmit (answering (Response 201 created))
                    (wallet (Throw (an_error "user rejected the transaction"))
                       (Throw (an_error "canvas unavailable")))
                    vaccine_data (initial, fresh_world))))
     = error.
Proof.
  split; [|vm_compute; reflexivity].
  cbv zeta. split; [vm_compute; reflexivity|].
  split; [vm_compute; reflexivity|].
  vm_compute. discriminate.
Qed.

(** C5.  The run of [onSubmit] in which the create answers 201 with the
    record of id 42 and the wallet resolves to ["0xabc"]: the wallet was
    called, the only request that left the client is the create, and the
    console holds the [TypeError] of the call to the method that does not
    exist.  The registration still ends in [success]. *)
Theorem anchor_reference_update_is_never_sent :
  let run := onSubmit (answering (Response 201 created))
               (wallet (Normal (Str "0xabc")) (Normal data_url))
               vaccine_data (initial, fresh_world) in
  map (fun r => (req_method r, req_url r)) (requests (snd (fst run)))
  = [("POST", "/api/products")]
  /\ map fst (calls (snd (fst run))) = ["registerProduct"; "generateQRCode"]
  /\ console (snd (fst run))
     = [("Blockchain registration failed:",
         type_error "productsAPI.updateBlockchainHash is not a function")]
  /\ registrationState (fst (fst run)) = success.
Proof. vm_compute. repeat split. Qed.

(** C6, as the code has it.  When the create resolved to a record and
    [generateQRCode] rejects with an error object, the rejection reaches the
    outer [catch]: [onSubmit] ends in the [error] state with the message of
    the error, and neither the registered product nor the QR code is set.
    No request is sent after the create. *)
Theorem failed_rendering_fails_registration
    env ctx data st w w1 apiResponse id props :
  create env data w = (w1, Normal apiResponse) ->
  get apiResponse "id" = Normal id ->
  generateQRCode ctx (qr_payload data id) = Throw (Obj props) ->
  exists st' w',
    onSubmit env ctx data (st, w) = ((st', w'), Normal tt)
    /\ registrationState st' = error
    /\ registeredProduct st' = registeredProduct st
    /\ qrCodeUrl st' = qrCodeUrl st
    /\ error_message st'
       = or (or (opt_get (opt_get (own props "response") "data") "message")
                (own props "message"))
            (Str "Failed to register product")
    /\ requests w' = requests w1.
Proof.
  intros Hc Hid Hqr.
  destruct (onSubmit_not_rendered env ctx data st w w1 apiResponse id props Hc Hid Hqr)
    as (w' & Hrun & Hreq).
  exists (failed (Obj props) (setError Null st)), w'.
  split; [exact Hrun|]. repeat split. exact Hreq.
Qed.

Lemma failed_rendering_fails_registration_witness :
  exists st' w',
    onSubmit (answering (Response 201 created))
      {| account := Null; registerProduct := None;
         generateQRCode := fun _ => Throw (an_error "canvas unavailable") |}
      vaccine_data (initial, fresh_world)
    = ((st', w'), Normal tt)
    /\ registrationState st' = error
    /\ registeredProduct st' = registeredProduct initial
    /\ qrCodeUrl st' = qrCodeUrl initial
    /\ error_message st'
       = or (or (opt_get (opt_get (own [("name", Str "Error");
                                        ("message", Str "canvas unavailable")]
                                     "response") "data") "message")
                (own [("name", Str "Error"); ("message", Str "canvas unavailable")]
                   "message"))
            (Str "Failed to register product")
    /\ requests w'
       = requests (fst (create (answering (Response 201 created)) vaccine_data fresh_world)).
Proof.
  apply (failed_rendering_fails_registration
           (answering (Response 201 created))
           {| account := Null; registerProduct := None;
              generateQRCode := fun _ => Throw (an_error "canvas unavailable") |}
           vaccine_data initial fresh_world
           (fst (create (answering (Response 201 created)) vaccine_data fresh_world))
           created (Str "42")).
  - vm_compute. reflexivity.
  - reflexivity.
  - reflexivity.
Defined.

(** C6, as stated, fails: the create answers 201, no wallet is connected,
    the renderer rejects, and the form ends in the [error] state, showing
    the renderer's message, with no registered product. *)
Lemma failed_rendering_is_reported_as_an_error :
  let st' := fst (fst (onSubmit (answering (Response 201 created))
                         {| account := Null; registerProduct := None;
                            generateQRCode := fun _ => Throw (an_error "canvas unavailable") |}
                         vaccine_data (initial, fresh_world))) in
  registrationState st' = error
  /\ registrationState st' <> success
  /\ registeredProduct st' = Null
  /\ error_message st' = Str "canvas unavailable".
Proof. vm_compute. repeat split. discriminate. Qed.

End RegistrationProps.

(** ** The product detail page *)

Module DetailProps.
Import ProductDetailPage DetailTerms.

Lemma card_well_formed total index checkpoint :
  well_formed checkpoint = true ->
  exists c,
    card total index checkpoint = Normal c
    /\ card_timestamp c = opt_get checkpoint "timestamp"
    /\ card_key c = opt_get checkpoint "id".
Proof.
  unfold well_formed, card. intros Hw.
  destruct checkpoint; try discriminate Hw; cbn [opt_get truthy andb] in *;
    try (eexists; split; [reflexivity | split; reflexivity]).
  destruct (truthy (own props "latitude")); cbn [andb] in Hw;
    [|eexists; split; [reflexivity | split; reflexivity]].
  destruct (truthy (own props "longitude"));
    [|eexists; split; [reflexivity | split; reflexivity]].
  destruct (own props "latitude"); try discriminate Hw;
    destruct (own props "longitude"); try discriminate Hw;
    eexists; split; [reflexivity | split; reflexivity].
Qed.

(** The cards follow the items one for one, in their order. *)
Lemma cards_from_well_formed total items : forall index,
  forallb well_formed items = true ->
  exists cs,
    cards_from total index items = Normal cs
    /\ map card_timestamp cs = map (fun c => opt_get c "timestamp") items
    /\ map card_key cs = map (fun c => opt_get c "id") items.
Proof.
  induction items as [|x rest IH]; intros index Hall; cbn [cards_from forallb map] in *.
  - exists []. repeat split.
  - apply andb_prop in Hall as [Hx Hrest].
    destruct (card_well_formed total index x Hx) as (c & -> & Ht & Hk).
    destruct (IH (S index) Hrest) as (cs & -> & Hts & Hks).
    exists (c :: cs). cbn [map]. rewrite Ht, Hk, Hts, Hks. repeat split.
Qed.

(** The branch of the timeline that maps over the checkpoints applies no
    sort: given a non-empty array of well-formed checkpoints it makes one
    card per item, in the order of the array. *)
Lemma the_map_applies_no_sort items :
  items <> [] ->
  forallb well_formed items = true ->
  exists cs,
    timeline (resolved (Arr items)) = Normal (TimelineCards cs)
    /\ map card_key cs = map (fun c => opt_get c "id") items
    /\ map card_timestamp cs = map (fun c => opt_get c "timestamp") items.
Proof.
  intros Hne Hall.
  destruct (cards_from_well_formed (length items) items 0%nat Hall) as (cs & Hcs & Hts & Hks).
  exists cs. unfold timeline, resolved. cbn [isLoading query_error data truthy negb].
  destruct items as [|x rest]; [congruence|].
  rewrite Hcs. repeat split; assumption.
Qed.

(** C9.  The service holds three checkpoints of product 42, at T1 < T2 <
    T3, and delivers them (in the order T3, T1, T2) to the method the table
    defines, [getByProduct].  The settled page of product 42 shows the
    product and, under "Journey Timeline", the message "Failed to load
    checkpoints": no checkpoint is presented, in any order, and the only
    request sent is the fetch of the product. *)
Theorem checkpoints_held_by_the_service_are_not_presented :
  snd (call_method "checkpointsAPI" (checkpointsAPI warehouse) "getByProduct" [Str "42"]
         fresh_world)
  = Normal (Arr received)
  /\ map (fun c => opt_get c "timestamp") received = [Str T3; Str T1; Str T2]
  /\ exists w' stats,
       ProductDetailPage warehouse (january 1893715200000) (Str "42") Settled Settled
         fresh_world
       = (w', Normal (Normal (Detail (Str "Vaccine X") (Str "CREATED") (Str "PFZ-CV19-001")
                                (TimelineError "Failed to load checkpoints") stats)))
       /\ map req_url (requests w') = ["/api/products/42"]
       /\ rendered_cards
            (Normal (Detail (Str "Vaccine X") (Str "CREATED") (Str "PFZ-CV19-001")
                       (TimelineError "Failed to load checkpoints") stats))
          = [].
Proof.
  split; [vm_compute; reflexivity|]. split; [reflexivity|].
  eexists _, _. split; [reflexivity|]. split; reflexivity.
Qed.

(** ** Statistics *)

Lemma daysInTransit_unavailable env rt props :
  truthy (own props "createdAt") = false ->
  daysInTransit env rt (Obj props) = Normal (Fin 0).
Proof. unfold daysInTransit. cbn [get]. intros ->. reflexivity. Qed.

Lemma daysInTransit_available env rt props t :
  truthy (own props "createdAt") = true ->
  new_Date env rt (own props "createdAt") = Some t ->
  daysInTransit env rt (Obj props)
  = Normal (Fin (inject_Z ((now rt - t) / 86400000))).
Proof. unfold daysInTransit. cbn [get]. intros -> ->. reflexivity. Qed.

(** C8, as the code has it.  The statistic is 0 when the product has no
    (truthy) creation time; otherwise it is the difference between the
    clock and the creation time in milliseconds, divided by the length of a
    day and rounded down.  That is 0 when the creation time is the current
    time and is not negative when the creation time is not in the future;
    for a creation time in the future it is negative: nothing clamps it. *)
Theorem daysInTransit_is_the_floored_difference env rt props :
  (truthy (own props "createdAt") = false ->
   daysInTransit env rt (Obj props) = Normal (Fin 0))
  /\ (forall t,
        truthy (own props "createdAt") = true ->
        new_Date env rt (own props "createdAt") = Some t ->
        daysInTransit env rt (Obj props)
        = Normal (Fin (inject_Z ((now rt - t) / 86400000)))
        /\ (t = now rt -> (now rt - t) / 86400000 = 0)
        /\ (t <= now rt -> 0 <= (now rt - t) / 86400000)
        /\ (now rt < t -> (now rt - t) / 86400000 < 0)).
Proof.
  split; [apply daysInTransit_unavailable|].
  intros t Ht Hd. split; [apply daysInTransit_available; assumption|].
  split; [|split].
  - intros ->. rewrite Z.sub_diag. reflexivity.
  - intros Hle. apply Z.div_pos; lia.
  - intros Hlt. apply Z.div_lt_upper_bound; lia.
Qed.

Lemma daysInTransit_is_the_floored_difference_witness :
  daysInTransit (answering NoResponse) (january 1893715200000) (Obj []) = Normal (Fin 0)
  /\ daysInTransit (answering NoResponse) (january 1893715200000)
       (Obj [("createdAt", Str T1)])
     = Normal (Fin (inject_Z ((1893715200000 - 1893456000000) / 86400000)))
  /\ 0 <= (1893715200000 - 1893456000000) / 86400000.
Proof.
  split.
  - apply (daysInTransit_is_the_floored_difference
             (answering NoResponse) (january 1893715200000) []).
    reflexivity.
  - destruct (daysInTransit_is_the_floored_difference
                (answering NoResponse) (january 1893715200000) [("createdAt", Str T1)])
      as [_ H].
    destruct (H 1893456000000 eq_refl eq_refl) as (Hdays & _ & Hpos & _).
    split; [exact Hdays|]. apply Hpos. cbn. lia.
Defined.

(** C8, as stated, fails: for a product created at T1, rendered one
    millisecond before T1, the page shows -1 day in transit. *)
Lemma daysInTransit_can_be_negative :
  daysInTransit (answering NoResponse) (january 1893455999999) product_created_at_T1
  = Normal (Fin (inject_Z (-1)))
  /\ num_lt (Fin (inject_Z (-1))) (Fin 0) = true
  /\ exists name status productId journey stats,
       render (answering NoResponse) (january 1893455999999)
         (delivered product_created_at_T1) (resolved (Arr []))
       = Normal (Detail name status productId journey stats)
       /\ daysInTransitShown stats = Fin (inject_Z (-1)).
Proof.
  split; [vm_compute; reflexivity|]. split; [reflexivity|].
  do 5 eexists. split; [vm_compute; reflexivity|]. reflexivity.
Qed.

(** ** The checkpoints query *)

(** The query function of the checkpoints query throws on every attempt,
    before any request is made. *)
Lemma checkpoints_queryFn_throws env productId retries w :
  attempt (call_method "checkpointsAPI" (checkpointsAPI env) "getByProductId" [productId])
    retries w
  = (w, Throw (type_error "checkpointsAPI.getByProductId is not a function")).
Proof.
  induction retries as [|k IH]; cbn [attempt]; unfold try_catch, call_method;
    rewrite checkpointsAPI_getByProductId; unfold throw.
  - reflexivity.
  - exact IH.
Qed.

Lemma useQuery_returns rt enabled queryFn phase w :
  exists w' q, useQuery rt enabled queryFn phase w = (w', Normal q).
Proof.
  unfold useQuery. destruct enabled; cbn [negb]; [|eexists _, _; reflexivity].
  destruct phase; [eexists _, _; reflexivity|].
  unfold try_catch, bind, ret.
  destruct (attempt queryFn (retry rt) w) as [w' [d | e]]; eexists _, _; reflexivity.
Qed.

(** The checkpoints query never holds data. *)
Lemma checkpointsQuery_has_no_data env rt productId phase w :
  exists q,
    checkpointsQuery env rt productId phase w = (w, Normal q)
    /\ data q = Undefined
    /\ (truthy productId = true -> phase = Settled ->
        q = rejected (type_error "checkpointsAPI.getByProductId is not a function")).
Proof.
  unfold checkpointsQuery, useQuery.
  destruct (truthy productId); cbn [negb].
  - destruct phase.
    + eexists. split; [reflexivity|]. split; [reflexivity|]. discriminate.
    + unfold try_catch, bind. rewrite checkpoints_queryFn_throws.
      eexists. split; [reflexivity|]. split; reflexivity.
  - eexists. split; [reflexivity|]. split; [reflexivity|]. discriminate.
Qed.

Lemma timeline_without_data q :
  data q = Undefined ->
  exists t, timeline q = Normal t /\ forall cs, t <> TimelineCards cs.
Proof.
  unfold timeline. intros ->.
  destruct (isLoading q); [eexists; split; [reflexivity | discriminate]|].
  destruct (truthy (query_error q)); eexists; (split; [reflexivity | discriminate]).
Qed.

Lemma render_without_data env rt productQ q :
  data q = Undefined ->
  rendered_cards (render env rt productQ q) = [].
Proof.
  intros Hd. unfold render.
  destruct (destructure_product (data productQ)) as [product|]; [|reflexivity].
  destruct (isLoading productQ || isLoading q); [reflexivity|].
  destruct (truthy (query_error productQ)); [reflexivity|].
  destruct (timeline_without_data q Hd) as (t & -> & Hno).
  destruct (get product "name"); [|reflexivity].
  destruct (daysInTransit env rt product); [|reflexivity].
  cbn [rendered_cards]. destruct t; try reflexivity. destruct (Hno cards eq_refl).
Qed.

(** C10.  For a product id (a truthy route parameter), the query function
    of the checkpoints query calls [checkpointsAPI.getByProductId]; the
    table defines [getByProduct] and no [getByProductId], so the call throws
    a [TypeError] on every attempt, without a request, and the settled
    query is in error with no data.  The journey section of a page rendered
    from it is the "Failed to load checkpoints" message, and whatever the
    phases of the two queries and the answers of the service, the rendered
    page shows no checkpoint. *)
Theorem checkpoints_are_never_shown env rt productId w :
  truthy productId = true ->
  checkpointsAPI env !! "getByProductId" = None
  /\ is_Some (checkpointsAPI env !! "getByProduct")
  /\ checkpointsQuery env rt productId Settled w
     = (w, Normal (rejected (type_error "checkpointsAPI.getByProductId is not a function")))
  /\ timeline (rejected (type_error "checkpointsAPI.getByProductId is not a function"))
     = Normal (TimelineError "Failed to load checkpoints")
  /\ (forall productPhase checkpointsPhase,
        exists w' page,
          ProductDetailPage env rt productId productPhase checkpointsPhase w
          = (w', Normal page)
          /\ rendered_cards page = []
          /\ (checkpointsPhase = Settled ->
              forall name status id journey stats,
                page = Normal (Detail name status id journey stats) ->
                journey = TimelineError "Failed to load checkpoints")).
Proof.
  intros Hid.
  split; [apply checkpointsAPI_getByProductId|].
  split; [apply checkpointsAPI_getByProduct|].
  split.
  { destruct (checkpointsQuery_has_no_data env rt productId Settled w) as (q & Hq & _ & Hrej).
    rewrite Hq, (Hrej Hid eq_refl). reflexivity. }
  split; [reflexivity|].
  intros productPhase checkpointsPhase.
  unfold ProductDetailPage, bind, productQuery.
  destruct (useQuery_returns rt (truthy productId)
              (call_method "productsAPI" (productsAPI env) "getById" [productId])
              productPhase w) as (w' & productQ & ->).
  destruct (checkpointsQuery_has_no_data env rt productId checkpointsPhase w')
    as (q & -> & Hd & Hrej).
  exists w', (render env rt productQ q). split; [reflexivity|].
  split; [apply render_without_data; exact Hd|].
  intros -> name status id journey stats. rewrite (Hrej Hid eq_refl).
  unfold render.
  destruct (destructure_product (data productQ)) as [product|]; [|discriminate].
  destruct (isLoading productQ || isLoading _); [discriminate|].
  destruct (truthy (query_error productQ)); [discriminate|].
  destruct (get product "name"); [|discriminate].
  change (timeline (rejected (type_error "checkpointsAPI.getByProductId is not a function")))
    with (Normal (A := Timeline) (TimelineError "Failed to load checkpoints")).
  destruct (daysInTransit env rt product); [|discriminate].
  intros [= _ _ _ <- _]. reflexivity.
Qed.

Lemma checkpoints_are_never_shown_witness :
  checkpointsQuery (answering (Response 200 (Arr received))) (january 0) (Str "42")
    Settled fresh_world
  = (fresh_world,
     Normal (rejected (type_error "checkpointsAPI.getByProductId is not a function"))).
Proof.
  destruct (checkpoints_are_never_shown (answering (Response 200 (Arr received)))
              (january 0) (Str "42") fresh_world eq_refl) as (_ & _ & H & _).
  exact H.
Defined.

End DetailProps.

(** ** The Axios instance *)

Module ApiProps.
Import ApiRest ApiTerms.

Lemma api_call_cases env method url payload w :
  api_call env method url payload w
  = match reply_to env method url payload w with
    | Response status data =>
        if is_2xx status
        then (log_request (sent env method url payload w) w, Normal data)
        else response_error_interceptor env (Response status data)
               (log_request (sent env method url payload w) w)
    | NoResponse =>
        response_error_interceptor env NoResponse
          (log_request (sent env method url payload w) w)
    | SetupFailure message =>
        response_error_interceptor env (SetupFailure message) w
    end.
Proof. reflexivity. Qed.

(** X1.  A call resolves exactly when the service answers with a status in
    200..299, and then to the body of the answer; the world it leaves is
    the one it found with the request appended to the log. *)
Theorem api_call_resolves_iff_2xx env method url payload w w' d :
  api_call env method url payload w = (w', Normal d)
  <-> exists status,
        reply_to env method url payload w = Response status d
        /\ 200 <= status < 300
        /\ w' = log_request (sent env method url payload w) w.
Proof.
  rewrite api_call_cases. unfold is_2xx.
  destruct (reply_to env method url payload w) as [status body | | msg].
  - destruct ((200 <=? status) && (status <? 300))%bool eqn:Hs.
    + apply andb_prop in Hs as [H1 H2]. apply Z.leb_le in H1. apply Z.ltb_lt in H2.
      split.
      * intros [= <- <-]. exists status. repeat split; assumption.
      * intros (s & [= <- <-] & _ & ->). reflexivity.
    + split.
      * unfold response_error_interceptor, bind, effect, throw, ret.
        destruct (status =? 401).
        { destruct (window_defined env); discriminate. }
        destruct (status =? 403); [discriminate|].
        destruct (status =? 404); [discriminate|].
        destruct (status =? 500); discriminate.
      * intros (s & [= <- <-] & [H1 H2] & _).
        apply andb_false_iff in Hs as [Hs | Hs];
          [apply Z.leb_gt in Hs | apply Z.ltb_ge in Hs]; lia.
  - split; [discriminate | intros (s & H & _); discriminate H].
  - split; [discriminate | intros (s & H & _); discriminate H].
Qed.

Lemma api_call_http_error env method url payload w status data :
  reply_to env method url payload w = Response status data ->
  is_2xx status = false ->
  api_call env method url payload w
  = response_error_interceptor env (Response status data)
      (log_request (sent env method url payload w) w).
Proof. intros Hr Hs. rewrite api_call_cases, Hr, Hs. reflexivity. Qed.

Lemma session_cleared (m : gmap string string) (a u : string) :
  delete u (delete a m) !! a = None.
Proof.
  destruct (decide (u = a)) as [-> | Hne].
  - apply lookup_delete_eq.
  - rewrite lookup_delete_ne by exact Hne. apply lookup_delete_eq.
Qed.

(** X2.  With a non-empty token stored under the token key, every request
    that goes on the wire carries it as [Bearer <token>]. *)
Theorem stored_token_is_attached env method url payload w t :
  window_defined env = true ->
  localStorage w !! AUTH_TOKEN env = Some t ->
  t <> "" ->
  (forall message, reply_to env method url payload w <> SetupFailure message) ->
  requests (fst (api_call env method url payload w))
  = (requests w ++
     [{| req_method := method; req_url := url; req_payload := payload;
         req_authorization := Some ("Bearer " ++ t)%string |}])%list.
Proof.
  intros Hwin Htok Hne Hsent.
  assert (Hreq : sent env method url payload w
                 = {| req_method := method; req_url := url; req_payload := payload;
                      req_authorization := Some ("Bearer " ++ t)%string |}).
  { unfold sent, request_interceptor. rewrite Hwin, Htok. cbn [truthy].
    destruct (String.eqb_spec t ""); [contradiction | reflexivity]. }
  rewrite <- Hreq, api_call_cases.
  destruct (reply_to env method url payload w) as [status body | | msg].
  - destruct (is_2xx status); [reflexivity|].
    unfold response_error_interceptor, bind, effect, throw, ret.
    destruct (status =? 401).
    { destruct (window_defined env); reflexivity. }
    destruct (status =? 403); [reflexivity|].
    destruct (status =? 404); [reflexivity|].
    destruct (status =? 500); reflexivity.
  - reflexivity.
  - destruct (Hsent msg eq_refl).
Qed.

Lemma stored_token_is_attached_witness :
  requests (fst (api_call (answering (Response 200 Null)) "GET" "/api/auth/me" Undefined
                   signed_in))
  = [{| req_method := "GET"; req_url := "/api/auth/me"; req_payload := Undefined;
        req_authorization := Some "Bearer jwt-abc" |}].
Proof.
  apply (stored_token_is_attached (answering (Response 200 Null))
           "GET" "/api/auth/me" Undefined signed_in "jwt-abc").
  - reflexivity.
  - reflexivity.
  - discriminate.
  - intros message. discriminate.
Defined.

(** X3.  An answer 401, in a browser, ends the session: the call rejects
    with the error Axios built (its message is not rewritten), the token
    and the user are removed from [localStorage], every other key is kept,
    the location becomes [/login], and the next request carries no token. *)
Theorem unauthorized_ends_the_session env method url payload w data :
  window_defined env = true ->
  reply_to env method url payload w = Response 401 data ->
  exists w',
    api_call env method url payload w
    = (w', Throw (axios_error (error_response 401 data) true (default_message 401)))
    /\ localStorage w' = delete (USER_DATA env) (delete (AUTH_TOKEN env) (localStorage w))
    /\ (forall k, k <> AUTH_TOKEN env -> k <> USER_DATA env ->
        localStorage w' !! k = localStorage w !! k)
    /\ location_href w' = Some "/login"
    /\ request_interceptor env w' = None.
Proof.
  intros Hwin Hr.
  rewrite (api_call_http_error _ _ _ _ _ _ _ Hr eq_refl).
  unfold response_error_interceptor, bind, effect, throw, ret.
  cbn [Z.eqb Pos.eqb]. rewrite Hwin.
  eexists. split; [reflexivity|].
  cbn [localStorage location_href set_location removeItem log_request].
  split; [reflexivity|]. split.
  { intros k Ha Hu. rewrite !lookup_delete_ne by congruence. reflexivity. }
  split; [reflexivity|].
  unfold request_interceptor. rewrite Hwin.
  cbn [localStorage set_location removeItem log_request].
  rewrite session_cleared. reflexivity.
Qed.

Lemma unauthorized_ends_the_session_witness :
  exists w',
    api_call (answering (Response 401 Null)) "GET" "/api/auth/me" Undefined signed_in
    = (w', Throw (axios_error (error_response 401 Null) true (default_message 401)))
    /\ localStorage w' = delete "user_data" (delete "auth_token" (localStorage signed_in))
    /\ (forall k, k <> "auth_token" -> k <> "user_data" ->
        localStorage w' !! k = localStorage signed_in !! k)
    /\ location_href w' = Some "/login"
    /\ request_interceptor (answering (Response 401 Null)) w' = None.
Proof.
  apply (unauthorized_ends_the_session (answering (Response 401 Null))
           "GET" "/api/auth/me" Undefined signed_in Null); reflexivity.
Defined.

(** X4.  No call ever writes to the console or to the log of collaborator
    calls.  And nothing but a 401 in a browser touches the session: after
    any other call [localStorage] and the location are as before. *)
Theorem only_401_touches_the_session env method url payload w :
  calls (fst (api_call env method url payload w)) = calls w
  /\ console (fst (api_call env method url payload w)) = console w
  /\ (window_defined env = false
      \/ (forall data, reply_to env method url payload w <> Response 401 data) ->
      localStorage (fst (api_call env method url payload w)) = localStorage w
      /\ location_href (fst (api_call env method url payload w)) = location_href w).
Proof.
  rewrite api_call_cases.
  destruct (reply_to env method url payload w) as [status body | | msg];
    [|repeat split..].
  destruct (is_2xx status); [repeat split|].
  unfold response_error_interceptor, bind, effect, throw, ret.
  destruct (status =? 401) eqn:H401.
  - apply Z.eqb_eq in H401 as ->.
    destruct (window_defined env) eqn:Hwin.
    + split; [reflexivity|]. split; [reflexivity|].
      intros [Hno | Hno]; [discriminate Hno | destruct (Hno body eq_refl)].
    + repeat split.
  - destruct (status =? 403); [repeat split|].
    destruct (status =? 404); [repeat split|].
    destruct (status =? 500); repeat split.
Qed.

Lemma only_401_touches_the_session_witness :
  calls (fst (api_call (answering (Response 401 Null)) "GET" "/api/products" Undefined
                signed_in))
  = calls signed_in
  /\ console (fst (api_call (answering (Response 401 Null)) "GET" "/api/products" Undefined
                     signed_in))
     = console signed_in
  /\ localStorage (fst (api_call (answering (Response 500 Null)) "GET" "/api/products"
                          Undefined signed_in))
     = localStorage signed_in
  /\ location_href (fst (api_call (answering (Response 500 Null)) "GET" "/api/products"
                           Undefined signed_in))
     = location_href signed_in.
Proof.
  destruct (only_401_touches_the_session (answering (Response 401 Null))
              "GET" "/api/products" Undefined signed_in) as (Hcalls & Hconsole & _).
  destruct (only_401_touches_the_session (answering (Response 500 Null))
              "GET" "/api/products" Undefined signed_in) as (_ & _ & Hsession).
  split; [exact Hcalls|]. split; [exact Hconsole|].
  apply Hsession. right. intros data. discriminate.
Defined.

(** X5.  An answer outside 2xx rejects with an error that always carries
    the status and the body of the answer under [response].  Its message
    is the fixed text of the constants for 403, 404 and 500 -- whatever
    the body says -- and for every other status but 401 the [message] of
    the body when there is one, else the text Axios built. *)
Theorem http_error_keeps_the_body_and_rewrites_the_message
    env method url payload w status data :
  reply_to env method url payload w = Response status data ->
  is_2xx status = false ->
  exists w' message,
    api_call env method url payload w
    = (w', Throw (axios_error (error_response status data) true message))
    /\ (status = 401 -> message = default_message 401)
    /\ (status = 403 -> message = Str (FORBIDDEN env))
    /\ (status = 404 -> message = Str (NOT_FOUND env))
    /\ (status = 500 -> message = Str (SERVER_ERROR env))
    /\ (status <> 401 -> status <> 403 -> status <> 404 -> status <> 500 ->
        message = or (opt_get data "message") (default_message status)).
Proof.
  intros Hr Hs. rewrite (api_call_http_error _ _ _ _ _ _ _ Hr Hs).
  unfold response_error_interceptor, bind, effect, throw, ret.
  destruct (status =? 401) eqn:H401.
  { apply Z.eqb_eq in H401 as ->.
    destruct (window_defined env); eexists _, _;
      (split; [reflexivity|]); repeat split; intros; congruence. }
  apply Z.eqb_neq in H401.
  destruct (status =? 403) eqn:H403.
  { apply Z.eqb_eq in H403 as ->. eexists _, _. split; [reflexivity|].
    repeat split; intros; congruence. }
  apply Z.eqb_neq in H403.
  destruct (status =? 404) eqn:H404.
  { apply Z.eqb_eq in H404 as ->. eexists _, _. split; [reflexivity|].
    repeat split; intros; congruence. }
  apply Z.eqb_neq in H404.
  destruct (status =? 500) eqn:H500.
  { apply Z.eqb_eq in H500 as ->. eexists _, _. split; [reflexivity|].
    repeat split; intros; congruence. }
  apply Z.eqb_neq in H500.
  eexists _, _. split; [reflexivity|]. repeat split; intros; congruence.
Qed.

Lemma http_error_keeps_the_body_and_rewrites_the_message_witness :
  exists w' message,
    api_call (answering (Response 404 (Obj [("message", Str "No product PFZ-9")])))
      "GET" "/api/products/PFZ-9" Undefined fresh_world
    = (w', Throw (axios_error
                    (error_response 404 (Obj [("message", Str "No product PFZ-9")]))
                    true message))
    /\ message = Str "Resource not found".
Proof.
  destruct (http_error_keeps_the_body_and_rewrites_the_message
              (answering (Response 404 (Obj [("message", Str "No product PFZ-9")])))
              "GET" "/api/products/PFZ-9" Undefined fresh_world
              404 (Obj [("message", Str "No product PFZ-9")]) eq_refl eq_refl)
    as (w' & message & Hrun & _ & _ & H404 & _).
  exists w', message. split; [exact Hrun | exact (H404 eq_refl)].
Defined.

Lemma logout_runs env args w :
  window_defined env = true ->
  call_method "authAPI" (authAPI env) "logout" args w
  = (removeItem (USER_DATA env) (removeItem (AUTH_TOKEN env) w), Normal Undefined).
Proof.
  intros Hwin. unfold call_method.
  change (authAPI env !! "logout")
    with (Some (fun _ : list value =>
                  if window_defined env
                  then effect (removeItem (AUTH_TOKEN env)) ;;;
                       effect (removeItem (USER_DATA env)) ;;;
                       (ret Undefined : M World value)
                  else ret Undefined)).
  rewrite Hwin. reflexivity.
Qed.

(** X6.  [authAPI.logout] in a browser sends nothing and redirects
    nowhere: it removes the token and the user from [localStorage] and
    keeps every other key, after it a request carries no token, and a
    second logout changes nothing more. *)
Theorem logout_clears_the_session_locally env args w :
  window_defined env = true ->
  exists w',
    call_method "authAPI" (authAPI env) "logout" args w = (w', Normal Undefined)
    /\ requests w' = requests w
    /\ location_href w' = location_href w
    /\ localStorage w' !! AUTH_TOKEN env = None
    /\ localStorage w' !! USER_DATA env = None
    /\ (forall k, k <> AUTH_TOKEN env -> k <> USER_DATA env ->
        localStorage w' !! k = localStorage w !! k)
    /\ request_interceptor env w' = None
    /\ call_method "authAPI" (authAPI env) "logout" args w' = (w', Normal Undefined).
Proof.
  intros Hwin. rewrite (logout_runs env args w Hwin).
  eexists. split; [reflexivity|].
  cbn [requests location_href localStorage removeItem].
  split; [reflexivity|]. split; [reflexivity|].
  split; [apply session_cleared|].
  split; [apply lookup_delete_eq|].
  split.
  { intros k Ha Hu. rewrite !lookup_delete_ne by congruence. reflexivity. }
  split.
  { unfold request_interceptor. rewrite Hwin. cbn [localStorage removeItem].
    rewrite session_cleared. reflexivity. }
  rewrite (logout_runs env args _ Hwin). f_equal.
  unfold removeItem. cbn [requests calls console localStorage location_href].
  f_equal. apply map_eq. intros k.
  rewrite !lookup_delete. repeat case_decide; reflexivity.
Qed.

Lemma logout_clears_the_session_locally_witness :
  exists w',
    call_method "authAPI" (authAPI (answering NoResponse)) "logout" [] signed_in
    = (w', Normal Undefined)
    /\ requests w' = requests signed_in
    /\ location_href w' = location_href signed_in
    /\ localStorage w' !! "auth_token" = None
    /\ localStorage w' !! "user_data" = None
    /\ (forall k, k <> "auth_token" -> k <> "user_data" ->
        localStorage w' !! k = localStorage signed_in !! k)
    /\ request_interceptor (answering NoResponse) w' = None
    /\ call_method "authAPI" (authAPI (answering NoResponse)) "logout" [] w'
       = (w', Normal Undefined).
Proof.
  apply (logout_clears_the_session_locally (answering NoResponse) [] signed_in).
  reflexivity.
Defined.

Lemma undefined_property_call object (table : gmap string method) name args w :
  name ∉ dom table ->
  call_method object table name args w
  = (w, Throw (type_error (object ++ "." ++ name ++ " is not a function"))).
Proof.
  intros Hout. unfold call_method.
  destruct (table !! name) as [f|] eqn:Hf; [|reflexivity].
  destruct Hout. apply elem_of_dom. exists f. exact Hf.
Qed.

Lemma productsAPI_dom env :
  dom (productsAPI env)
  = ({[ "create"; "getAll"; "getById"; "verify"; "getByBlockchainId" ]} : gset string).
Proof. unfold productsAPI. rewrite !dom_insert_L, dom_singleton_L. set_solver. Qed.

Lemma checkpointsAPI_dom env :
  dom (checkpointsAPI env) = ({[ "create"; "getByProduct"; "update" ]} : gset string).
Proof. unfold checkpointsAPI. rewrite !dom_insert_L, dom_singleton_L. set_solver. Qed.

Lemma authAPI_dom env :
  dom (authAPI env) = ({[ "login"; "register"; "me"; "logout" ]} : gset string).
Proof. unfold authAPI. rewrite !dom_insert_L, dom_singleton_L. set_solver. Qed.

Lemma userAPI_dom env :
  dom (userAPI env) = ({[ "getProfile"; "updateProfile"; "updateWallet" ]} : gset string).
Proof. unfold userAPI. rewrite !dom_insert_L, dom_singleton_L. set_solver. Qed.

(** X7.  The own methods of the four exported tables are these and no
    others.  A call, on one of the tables, of a name that is neither one
    of its own methods nor inherited from [Object.prototype] throws a
    [TypeError] at once: the world is untouched, so nothing is sent. *)
Theorem tables_define_these_methods_only env name args w :
  ~ In name inherited_names ->
  (name ∉ ({[ "create"; "getAll"; "getById"; "verify"; "getByBlockchainId" ]} : gset string) ->
   call_method "productsAPI" (productsAPI env) name args w
   = (w, Throw (type_error ("productsAPI." ++ name ++ " is not a function"))))
  /\ (name ∉ ({[ "create"; "getByProduct"; "update" ]} : gset string) ->
      call_method "checkpointsAPI" (checkpointsAPI env) name args w
      = (w, Throw (type_error ("checkpointsAPI." ++ name ++ " is not a function"))))
  /\ (name ∉ ({[ "login"; "register"; "me"; "logout" ]} : gset string) ->
      call_method "authAPI" (authAPI env) name args w
      = (w, Throw (type_error ("authAPI." ++ name ++ " is not a function"))))
  /\ (name ∉ ({[ "getProfile"; "updateProfile"; "updateWallet" ]} : gset string) ->
      call_method "userAPI" (userAPI env) name args w
      = (w, Throw (type_error ("userAPI." ++ name ++ " is not a function"))))
  /\ dom (productsAPI env)
     = ({[ "create"; "getAll"; "getById"; "verify"; "getByBlockchainId" ]} : gset string)
  /\ dom (checkpointsAPI env) = ({[ "create"; "getByProduct"; "update" ]} : gset string)
  /\ dom (authAPI env) = ({[ "login"; "register"; "me"; "logout" ]} : gset string)
  /\ dom (userAPI env)
     = ({[ "getProfile"; "updateProfile"; "updateWallet" ]} : gset string).
Proof.
  intros _.
  split; [intros H; apply undefined_property_call; rewrite productsAPI_dom; exact H|].
  split; [intros H; apply undefined_property_call; rewrite checkpointsAPI_dom; exact H|].
  split; [intros H; apply undefined_property_call; rewrite authAPI_dom; exact H|].
  split; [intros H; apply undefined_property_call; rewrite userAPI_dom; exact H|].
  split; [apply productsAPI_dom|].
  split; [apply checkpointsAPI_dom|].
  split; [apply authAPI_dom | apply userAPI_dom].
Qed.

Lemma tables_define_these_methods_only_witness :
  call_method "productsAPI" (productsAPI (answering NoResponse)) "delete" [Str "42"]
    fresh_world
  = (fresh_world, Throw (type_error "productsAPI.delete is not a function")).
Proof.
  destruct (tables_define_these_methods_only (answering NoResponse) "delete" [Str "42"]
              fresh_world) as (Hcall & _).
  - cbv. intros H.
    repeat (destruct H as [H | H]; [discriminate H|]). exact H.
  - apply Hcall. rewrite <- (productsAPI_dom (answering NoResponse)).
    apply not_elem_of_dom. reflexivity.
Defined.

(** A request that can be put on the wire is logged, once, whatever the
    answer. *)
Lemma api_call_logs_request env method url payload w :
  (forall message, reply_to env method url payload w <> SetupFailure message) ->
  requests (fst (api_call env method url payload w))
  = (requests w ++ [sent env method url payload w])%list.
Proof.
  intros Hsent. rewrite api_call_cases.
  destruct (reply_to env method url payload w) as [status body | | msg].
  - destruct (is_2xx status); [reflexivity|].
    unfold response_error_interceptor, bind, effect, throw, ret.
    destruct (status =? 401).
    { destruct (window_defined env); reflexivity. }
    destruct (status =? 403); [reflexivity|].
    destruct (status =? 404); [reflexivity|].
    destruct (status =? 500); reflexivity.
  - reflexivity.
  - destruct (Hsent msg eq_refl).
Qed.

(** What a call rejects with, by the answer. *)
Lemma api_call_rejection_response env method url payload w :
  match reply_to env method url payload w with
  | Response status data =>
      is_2xx status = false ->
      exists w' message,
        api_call env method url payload w
        = (w', Throw (axios_error (error_response status data) true message))
  | NoResponse =>
      exists w',
        api_call env method url payload w
        = (w', Throw (axios_error Undefined true (Str (NETWORK_ERROR env))))
  | SetupFailure message =>
      api_call env method url payload w
      = (w, Throw (axios_error Undefined false (Str message)))
  end.
Proof.
  rewrite api_call_cases.
  destruct (reply_to env method url payload w) as [status body | | msg].
  - intros ->.
    unfold response_error_interceptor, bind, effect, throw, ret.
    destruct (status =? 401).
    { destruct (window_defined env); eexists _, _; reflexivity. }
    destruct (status =? 403); [eexists _, _; reflexivity|].
    destruct (status =? 404); [eexists _, _; reflexivity|].
    destruct (status =? 500); eexists _, _; reflexivity.
  - eexists. reflexivity.
  - reflexivity.
Qed.

End ApiProps.

(** ** The verify page, further *)

Module VerifyMore.
Import VerifyPage VerifyTerms VerifyRest ApiTerms.

Lemma lookup_is_api_call env st w :
  lookup env st w
  = api_call env "GET" ("/api/products/verify/" ++ productId st) Undefined w.
Proof. unfold lookup, call_method. rewrite productsAPI_verify. reflexivity. Qed.

(** X8.  On an input that is not blank [handleVerify] always completes,
    whatever the lookup does: the spinner flag is down again, the input is
    as typed, and a verification result is set whose [verified] flag is the
    truthiness of the product it holds -- a verified result always has a
    product to show, a failed one never has. *)
Theorem handleVerify_always_settles env st w :
  blank (productId st) = false ->
  exists st' w' r,
    handleVerify env (st, w) = ((st', w'), Normal tt)
    /\ scanning st' = false
    /\ productId st' = productId st
    /\ verificationResult st' = Some r
    /\ verified r = truthy (product r).
Proof.
  intros Hb. destruct (lookup env st w) as [w' [body | err]] eqn:Hl.
  - rewrite (VerifyProps.handleVerify_resolved _ _ _ _ _ Hb Hl).
    eexists _, _, _. split; [reflexivity|]. repeat split.
    destruct (truthy body) eqn:Ht; cbn; [rewrite Ht|]; reflexivity.
  - rewrite (VerifyProps.handleVerify_rejected _ _ _ _ _ Hb Hl).
    eexists _, _, _. split; [reflexivity|]. repeat split.
Qed.

Lemma handleVerify_always_settles_witness :
  exists st' w' r,
    handleVerify (answering NoResponse) (typed "PFZ-CV19-001", fresh_world)
    = ((st', w'), Normal tt)
    /\ scanning st' = false
    /\ productId st' = "PFZ-CV19-001"
    /\ verificationResult st' = Some r
    /\ verified r = truthy (product r).
Proof.
  apply (handleVerify_always_settles (answering NoResponse) (typed "PFZ-CV19-001")
           fresh_world).
  reflexivity.
Defined.

Lemma handleVerify_world env st w :
  blank (productId st) = false ->
  requests (snd (fst (handleVerify env (st, w))))
  = requests (fst (lookup env st w))
  /\ calls (snd (fst (handleVerify env (st, w)))) = calls (fst (lookup env st w)).
Proof.
  intros Hb. destruct (lookup env st w) as [w' [body | err]] eqn:Hl.
  - rewrite (VerifyProps.handleVerify_resolved _ _ _ _ _ Hb Hl). split; reflexivity.
  - rewrite (VerifyProps.handleVerify_rejected _ _ _ _ _ Hb Hl). split; reflexivity.
Qed.

(** X9.  [handleVerify] makes one call, a GET, and the URL it hands to
    the HTTP client is [/api/products/verify/] followed by the input
    exactly as typed: the trimmed string is used for the emptiness test
    only, and the page applies no [encodeURIComponent] of its own. *)
Theorem handleVerify_hands_over_the_input_as_typed env st w :
  blank (productId st) = false ->
  (forall message,
     reply_to env "GET" ("/api/products/verify/" ++ productId st) Undefined w
     <> SetupFailure message) ->
  requests (snd (fst (handleVerify env (st, w))))
  = (requests w ++
     [{| req_method := "GET";
         req_url := ("/api/products/verify/" ++ productId st)%string;
         req_payload := Undefined;
         req_authorization := request_interceptor env w |}])%list.
Proof.
  intros Hb Hsent.
  destruct (handleVerify_world env st w Hb) as [-> _].
  rewrite lookup_is_api_call.
  apply (ApiProps.api_call_logs_request env "GET" _ Undefined w Hsent).
Qed.

Lemma handleVerify_hands_over_the_input_as_typed_witness :
  requests (snd (fst (handleVerify (answering (Response 404 Null))
                        (typed " PFZ 001/x ", fresh_world))))
  = [{| req_method := "GET"; req_url := "/api/products/verify/ PFZ 001/x ";
        req_payload := Undefined; req_authorization := None |}].
Proof.
  apply (handleVerify_hands_over_the_input_as_typed (answering (Response 404 Null))
           (typed " PFZ 001/x ") fresh_world).
  - reflexivity.
  - intros message. discriminate.
Defined.

(** X10.  The [error] cell after [handleVerify] is decided by the answer
    alone: [null] when the lookup resolved, the [message] of the answer's
    body when the service answered outside 2xx with one, and ["Product not
    found"] otherwise -- the message the interceptor writes on the error
    is never the one recorded. *)
Theorem handleVerify_records_the_message_of_the_body env st w :
  blank (productId st) = false ->
  error (fst (fst (handleVerify env (st, w))))
  = match reply_to env "GET" ("/api/products/verify/" ++ productId st) Undefined w with
    | Response status data =>
        if is_2xx status then Null
        else or (opt_get data "message") (Str "Product not found")
    | _ => Str "Product not found"
    end.
Proof.
  intros Hb.
  pose proof (ApiProps.api_call_rejection_response env "GET"
                ("/api/products/verify/" ++ productId st) Undefined w) as Hrej.
  pose proof (ApiProps.api_call_cases env "GET"
                ("/api/products/verify/" ++ productId st) Undefined w) as Hcases.
  rewrite <- lookup_is_api_call in Hrej, Hcases.
  destruct (reply_to env "GET" ("/api/products/verify/" ++ productId st) Undefined w)
    as [status data | | msg].
  - destruct (is_2xx status).
    + rewrite (VerifyProps.handleVerify_resolved _ _ _ _ _ Hb Hcases). reflexivity.
    + destruct (Hrej eq_refl) as (w' & message & Hl).
      rewrite (VerifyProps.handleVerify_rejected _ _ _ _ _ Hb Hl). reflexivity.
  - destruct Hrej as (w' & Hl).
    rewrite (VerifyProps.handleVerify_rejected _ _ _ _ _ Hb Hl). reflexivity.
  - rewrite (VerifyProps.handleVerify_rejected _ _ _ _ _ Hb Hrej). reflexivity.
Qed.

Lemma handleVerify_records_the_message_of_the_body_witness :
  error (fst (fst (handleVerify
                     (answering (Response 404 (Obj [("message", Str "No product PFZ-9")])))
                     (typed "PFZ-9", fresh_world))))
  = Str "No product PFZ-9".
Proof.
  apply (handleVerify_records_the_message_of_the_body
           (answering (Response 404 (Obj [("message", Str "No product PFZ-9")])))
           (typed "PFZ-9") fresh_world).
  reflexivity.
Defined.

(** X11.  The page reads the product off the response body itself.  For a
    body of the shape [api.js] documents for the verify endpoint,
    [{product, isAuthentic}], the product is reported as verified, each of
    the eight fields of the details grid is [undefined], and "View Complete
    Product Journey" navigates to [/products/undefined]. *)
Theorem documented_body_shows_no_field env st w w1 p a :
  blank (productId st) = false ->
  lookup env st w = (w1, Normal (Obj [("product", p); ("isAuthentic", a)])) ->
  exists st',
    handleVerify env (st, w) = ((st', w1), Normal tt)
    /\ panel (render st')
       = VerifiedPanel (Some (Obj [("product", p); ("isAuthentic", a)]))
    /\ map snd (details (Obj [("product", p); ("isAuthentic", a)])) = repeat Undefined 8
    /\ viewJourney env (st', w1) = ((st', set_location "/products/undefined" w1), Normal tt).
Proof.
  intros Hb Hl.
  rewrite (VerifyProps.handleVerify_resolved _ _ _ _ _ Hb Hl).
  eexists. split; [reflexivity|]. repeat split.
Qed.

Lemma documented_body_shows_no_field_witness :
  exists st',
    handleVerify (answering (Response 200 not_authentic_body))
      (typed "PFZ-CV19-001", fresh_world)
    = ((st', fst (lookup (answering (Response 200 not_authentic_body))
                    (typed "PFZ-CV19-001") fresh_world)), Normal tt)
    /\ panel (render st') = VerifiedPanel (Some not_authentic_body)
    /\ map snd (details not_authentic_body) = repeat Undefined 8
    /\ viewJourney (answering (Response 200 not_authentic_body))
         (st', fst (lookup (answering (Response 200 not_authentic_body))
                      (typed "PFZ-CV19-001") fresh_world))
       = ((st', set_location "/products/undefined"
                  (fst (lookup (answering (Response 200 not_authentic_body))
                          (typed "PFZ-CV19-001") fresh_world))), Normal tt).
Proof.
  apply (documented_body_shows_no_field (answering (Response 200 not_authentic_body))
           (typed "PFZ-CV19-001") fresh_world).
  - reflexivity.
  - vm_compute. reflexivity.
Defined.

End VerifyMore.

(** ** The registration form, further *)

Module RegistrationMore.
Import Registration RegistrationTerms RegistrationRest RegistrationMoreTerms.

Lemma productSchema_inr v d :
  productSchema v = inr d <-> productSchema_parse v = ([], Some d).
Proof.
  unfold productSchema.
  destruct (productSchema_parse v) as [[|i issues] [d'|]]; split; intros H;
    try discriminate H; congruence.
Qed.

Lemma length_check n s : Nat.ltb (String.length s) n = negb (n <=? String.length s)%nat.
Proof. apply Nat.ltb_antisym. Qed.

Lemma productSchema_accepted v d :
  productSchema v = inr d -> carries v d /\ satisfies d = true.
Proof.
  intros H. apply productSchema_inr in H. unfold productSchema_parse in H.
  pose proof (RegistrationProps.z_object_paths v) as Hp.
  destruct (z_object v) as [issues o] eqn:Ez. cbn [fst snd] in H, Hp.
  destruct o as [d'|]; [|discriminate H].
  injection H as Happ ->. apply app_eq_nil in Happ as [-> Href].
  cbn [map] in Hp. symmetry in Hp. repeat (apply app_eq_nil in Hp as [? Hp]).
  assert (Hr : temperature_refinement d = true)
    by (destruct (temperature_refinement d); [reflexivity | discriminate Href]).
  unfold z_object in Ez. apply (f_equal snd) in Ez. cbn [snd] in Ez.
  unfold carries.
  destruct (name v) as [s1|]; [|discriminate].
  destruct (productId v) as [s2|]; [|discriminate].
  destruct (category v) as [s3|]; [|discriminate].
  destruct (description v) as [s4|]; [|discriminate].
  destruct (manufacturingDate v) as [s5|]; [|discriminate].
  destruct (originLocation v) as [s6|]; [|discriminate].
  destruct (minTemperature v) as [[]|], (maxTemperature v) as [[]|];
    try discriminate;
    cbn in Ez; injection Ez as <-;
    unfold satisfies; rewrite Hr;
    cbn [data_name data_productId data_category data_description
         data_manufacturingDate data_expiryDate data_originLocation
         data_minTemperature data_maxTemperature is_number too_short] in *;
    rewrite length_check in *;
    (destruct (3 <=? String.length s1)%nat; [|discriminate]);
    (destruct (3 <=? String.length s2)%nat; [|discriminate]);
    (destruct (1 <=? String.length s3)%nat; [|discriminate]);
    (destruct (10 <=? String.length s4)%nat; [|discriminate]);
    (destruct (1 <=? String.length s5)%nat; [|discriminate]);
    (destruct (3 <=? String.length s6)%nat; [|discriminate]);
    repeat split.
Qed.

Lemma productSchema_accepts v d :
  carries v d -> satisfies d = true -> productSchema v = inr d.
Proof.
  intros Hc Hs. unfold carries, satisfies in *.
  destruct d as [n p c de m e o lo hi].
  cbn [data_name data_productId data_category data_description
       data_manufacturingDate data_expiryDate data_originLocation
       data_minTemperature data_maxTemperature] in *.
  destruct Hc as (H1 & H2 & H3 & H4 & H5 & H6 & H7 & H8 & H9).
  repeat (apply andb_prop in Hs as [Hs ?]).
  apply productSchema_inr.
  unfold productSchema_parse, z_object.
  rewrite H1, H2, H3, H4, H5, H6, H7, H8, H9.
  cbn [z_string_min z_string_optional fst snd]. rewrite !length_check.
  repeat match goal with
         | H : (_ <=? _)%nat = true |- _ => rewrite H; clear H
         end.
  destruct lo as [[]|], hi as [[]|]; try discriminate;
    cbn [z_coerce_number_optional negb fst snd app mbind option_bind];
    match goal with H : temperature_refinement _ = true |- _ => rewrite H end;
    reflexivity.
Qed.

(** X12.  The schema accepts the values of the form exactly when every
    text field is a string of the required length, no temperature is [NaN]
    and the refinement holds; the data it then returns are the values of
    the form, unchanged. *)
Theorem productSchema_accepts_iff v d :
  productSchema v = inr d <-> carries v d /\ satisfies d = true.
Proof.
  split.
  - apply productSchema_accepted.
  - intros [Hc Hs]. apply productSchema_accepts; assumption.
Qed.

Lemma onSubmit_requests env ctx data st w :
  requests (snd (fst (onSubmit env ctx data (st, w))))
  = requests (fst (create env data w)).
Proof.
  destruct (create env data w) as [w1 [apiResponse | err]] eqn:Hc.
  - unfold create in Hc.
    unfold onSubmit, try_catch, bind, on_component, in_world. cbn [fst snd].
    rewrite Hc. cbn [fst snd].
    destruct (RegistrationProps.blockchain_step_continues env ctx data apiResponse
                (setError Null (setRegistrationState registering st)) w1)
      as (w2 & -> & Hreq & _).
    unfold lift, effect. cbn [fst snd].
    destruct (get apiResponse "id") as [id | e]; cbn [fst snd].
    + destruct (generateQRCode ctx _) as [qr | e]; cbn [fst snd]; [exact Hreq|].
      destruct (get e "response"); cbn [fst snd]; [|exact Hreq].
      destruct (get e "message"); cbn [fst snd]; exact Hreq.
    + destruct (get e "response"); cbn [fst snd]; [|exact Hreq].
      destruct (get e "message"); cbn [fst snd]; exact Hreq.
  - rewrite (RegistrationProps.onSubmit_create_rejected _ _ _ _ _ _ _ Hc). reflexivity.
Qed.

Lemma create_is_api_call env data w :
  create env data w = api_call env "POST" "/api/products" (productData data) w.
Proof. unfold create, call_method. rewrite productsAPI_create. reflexivity. Qed.

(** X13.  Whatever the wallet and the QR renderer do, a run of [onSubmit]
    sends one request and no more: the POST of the product data to
    [/api/products]. *)
Theorem onSubmit_sends_the_create_only env ctx data st w :
  (forall message,
     ApiTerms.reply_to env "POST" "/api/products" (productData data) w
     <> SetupFailure message) ->
  requests (snd (fst (onSubmit env ctx data (st, w))))
  = (requests w ++
     [{| req_method := "POST"; req_url := "/api/products";
         req_payload := productData data;
         req_authorization := request_interceptor env w |}])%list.
Proof.
  intros Hsent. rewrite onSubmit_requests, create_is_api_call.
  apply (ApiProps.api_call_logs_request env "POST" "/api/products" _ w Hsent).
Qed.

Lemma onSubmit_sends_the_create_only_witness :
  requests (snd (fst (onSubmit (answering (Response 201 created))
                        (wallet (Normal (Str "0xabc")) (Normal data_url))
                        vaccine_data (initial, fresh_world))))
  = [{| req_method := "POST"; req_url := "/api/products";
        req_payload := productData vaccine_data;
        req_authorization := None |}].
Proof.
  apply (onSubmit_sends_the_create_only (answering (Response 201 created))
           (wallet (Normal (Str "0xabc")) (Normal data_url))
           vaccine_data initial fresh_world).
  intros message. discriminate.
Defined.

(** X14.  The payload of the create carries the text fields as typed, and
    [null] for every optional field that is missing or falsy: an empty
    expiry date, and a temperature bound equal to zero. *)
Theorem falsy_options_are_sent_as_null v d :
  productSchema v = inr d ->
  opt_get (productData d) "name" = of_string (name v)
  /\ opt_get (productData d) "productId" = of_string (productId v)
  /\ opt_get (productData d) "category" = of_string (category v)
  /\ opt_get (productData d) "description" = of_string (description v)
  /\ opt_get (productData d) "manufacturingDate" = of_string (manufacturingDate v)
  /\ opt_get (productData d) "originLocation" = of_string (originLocation v)
  /\ opt_get (productData d) "expiryDate" = string_or_null (expiryDate v)
  /\ opt_get (productData d) "minTemperature" = number_or_null (minTemperature v)
  /\ opt_get (productData d) "maxTemperature" = number_or_null (maxTemperature v).
Proof.
  intros H. apply productSchema_accepted in H as [Hc _].
  destruct Hc as (-> & -> & -> & -> & -> & -> & -> & -> & ->).
  destruct d as [n p c de m e o lo hi]. cbn.
  repeat split.
  - destruct e as [s|]; [|reflexivity]. cbn. unfold or. cbn.
    destruct (String.eqb s ""); reflexivity.
  - destruct lo as [x|]; [|reflexivity]. cbn. unfold or. cbn.
    destruct (num_truthy x); reflexivity.
  - destruct hi as [x|]; [|reflexivity]. cbn. unfold or. cbn.
    destruct (num_truthy x); reflexivity.
Qed.

Lemma falsy_options_are_sent_as_null_witness :
  opt_get (productData
             {| data_name := "Vaccine X"; data_productId := "PFZ-CV19-001";
                data_category := "PHARMACEUTICALS";
                data_description := "ten-character description";
                data_manufacturingDate := "2024-01-01"; data_expiryDate := Some "";
                data_originLocation := "New York";
                data_minTemperature := Some (Fin 0);
                data_maxTemperature := Some (Fin 8) |}) "minTemperature"
  = Null.
Proof.
  destruct (falsy_options_are_sent_as_null (with_temperatures 0 8 vaccine)
              {| data_name := "Vaccine X"; data_productId := "PFZ-CV19-001";
                 data_category := "PHARMACEUTICALS";
                 data_description := "ten-character description";
                 data_manufacturingDate := "2024-01-01"; data_expiryDate := Some "";
                 data_originLocation := "New York";
                 data_minTemperature := Some (Fin 0);
                 data_maxTemperature := Some (Fin 8) |} eq_refl)
    as (_ & _ & _ & _ & _ & _ & _ & Hmin & _).
  exact Hmin.
Defined.

Lemma create_keeps_logs env data w :
  calls (fst (create env data w)) = calls w
  /\ console (fst (create env data w)) = console w.
Proof.
  rewrite create_is_api_call, ApiProps.api_call_cases.
  destruct (ApiTerms.reply_to env "POST" "/api/products" (productData data) w)
    as [status body | | msg]; [|split; reflexivity..].
  destruct (ApiTerms.is_2xx status); [split; reflexivity|].
  unfold response_error_interceptor, bind, effect, throw, ret.
  destruct (status =? 401).
  { destruct (window_defined env); split; reflexivity. }
  destruct (status =? 403); [split; reflexivity|].
  destruct (status =? 404); [split; reflexivity|].
  destruct (status =? 500); split; reflexivity.
Qed.

Lemma message_or_default_is_truthy a :
  truthy (or a (Str "Failed to register product")) = true.
Proof. unfold or. destruct (truthy a) eqn:Ha; [exact Ha | reflexivity]. Qed.

(** X15.  When the create is rejected the registration stops there: the
    form ends in the [error] state, neither the wallet nor the QR renderer
    is called, no product and no QR code are set, and the banner shows the
    [message] of the answer's body when it has one, else the message of
    the error, else ["Failed to register product"]. *)
Theorem rejected_create_stops_the_registration env ctx data st w w1 err isSubmitting :
  create env data w = (w1, Throw err) ->
  exists st' w',
    onSubmit env ctx data (st, w) = ((st', w'), Normal tt)
    /\ registrationState st' = error
    /\ registeredProduct st' = registeredProduct st
    /\ qrCodeUrl st' = qrCodeUrl st
    /\ calls w' = calls w
    /\ error_message st'
       = or (or (opt_get (opt_get (opt_get err "response") "data") "message")
                (opt_get err "message"))
            (Str "Failed to register product")
    /\ render isSubmitting st'
       = FormView (Some (error_message st')) (errors st) isSubmitting "Register Product".
Proof.
  intros Hc.
  rewrite (RegistrationProps.onSubmit_create_rejected _ _ _ _ _ _ _ Hc).
  eexists _, _. split; [reflexivity|].
  split; [reflexivity|]. split; [reflexivity|]. split; [reflexivity|].
  split.
  { cbn [calls console_error]. pose proof (create_keeps_logs env data w) as [Hcalls _].
    rewrite Hc in Hcalls. exact Hcalls. }
  split; [reflexivity|].
  unfold render, failed.
  cbn [registrationState error_message errors setError].
  rewrite message_or_default_is_truthy, orb_false_r. reflexivity.
Qed.

Lemma rejected_create_stops_the_registration_witness :
  exists st' w',
    onSubmit (answering (Response 409 (Obj [("message", Str "Product ID already exists")])))
      (wallet (Normal (Str "0xabc")) (Normal data_url)) vaccine_data (initial, fresh_world)
    = ((st', w'), Normal tt)
    /\ registrationState st' = error
    /\ calls w' = []
    /\ error_message st' = Str "Product ID already exists".
Proof.
  destruct (rejected_create_stops_the_registration
              (answering (Response 409 (Obj [("message", Str "Product ID already exists")])))
              (wallet (Normal (Str "0xabc")) (Normal data_url)) vaccine_data
              initial fresh_world
              (fst (create (answering
                              (Response 409 (Obj [("message", Str "Product ID already exists")])))
                      vaccine_data fresh_world))
              (axios_error
                 (ApiTerms.error_response 409
                    (Obj [("message", Str "Product ID already exists")]))
                 true (Str "Product ID already exists"))
              false)
    as (st' & w' & Hrun & Hstate & _ & _ & Hcalls & Hmsg & _).
  { vm_compute. reflexivity. }
  exists st', w'. repeat split; assumption.
Defined.

Lemma blockchain_step_skipped env ctx data apiResponse st w :
  connected ctx = false ->
  blockchain_step env ctx data apiResponse (st, w) = ((st, w), Normal tt).
Proof.
  unfold connected, blockchain_step.
  destruct (registerProduct ctx); [|reflexivity].
  intros ->. reflexivity.
Qed.

(** X16.  Without a connected wallet, values the schema accepts, a create
    that resolves to a record and a QR code that is rendered take
    [handleSubmit] to the [success] state: the registered product is the
    record, the QR code the rendered one, the field errors are cleared, the
    only collaborator called is the QR renderer -- with the product id as
    typed and the id of the record -- and nothing is written to the
    console. *)
Theorem anonymous_registration_succeeds env ctx v d st w w1 apiResponse id qrCode :
  connected ctx = false ->
  productSchema v = inr d ->
  create env d w = (w1, Normal apiResponse) ->
  get apiResponse "id" = Normal id ->
  generateQRCode ctx (qr_payload d id) = Normal qrCode ->
  handleSubmit env ctx v (st, w)
  = (({| registrationState := success; registeredProduct := apiResponse;
         qrCodeUrl := qrCode; error_message := Null; errors := [] |},
      log_call "generateQRCode"
        (Obj [("productId", of_string (productId v)); ("id", id)]) w1),
     Normal tt).
Proof.
  intros Hno Hv Hc Hid Hqr.
  destruct (productSchema_accepted v d Hv) as [(_ & Hp & _) _].
  unfold handleSubmit. rewrite Hv, Hp. unfold create in Hc.
  unfold onSubmit, try_catch, bind, on_component, in_world. cbn [fst snd].
  rewrite Hc. cbn [fst snd].
  rewrite (blockchain_step_skipped env ctx d apiResponse _ w1 Hno).
  unfold lift, effect. rewrite Hid. cbn [fst snd].
  unfold qr_payload in Hqr. rewrite Hqr. reflexivity.
Qed.

Lemma anonymous_registration_succeeds_witness :
  handleSubmit (answering (Response 201 created)) anonymous vaccine (initial, fresh_world)
  = (({| registrationState := success; registeredProduct := created;
         qrCodeUrl := data_url; error_message := Null; errors := [] |},
      log_call "generateQRCode"
        (Obj [("productId", of_string (productId vaccine)); ("id", Str "42")])
        (fst (create (answering (Response 201 created)) vaccine_data fresh_world))),
     Normal tt).
Proof.
  apply (anonymous_registration_succeeds (answering (Response 201 created)) anonymous
           vaccine vaccine_data initial fresh_world).
  - reflexivity.
  - reflexivity.
  - vm_compute. reflexivity.
  - reflexivity.
  - reflexivity.
Defined.

(** X17.  A create that resolves to [null] or [undefined] ends in the
    [error] state although the request was accepted: reading
    [apiResponse.id] throws before the QR renderer is called, and the
    banner shows the message of that [TypeError]. *)
Theorem empty_create_response_is_an_error env ctx data st w w1 apiResponse :
  create env data w = (w1, Normal apiResponse) ->
  apiResponse = Null \/ apiResponse = Undefined ->
  exists st' w',
    onSubmit env ctx data (st, w) = ((st', w'), Normal tt)
    /\ registrationState st' = error
    /\ registeredProduct st' = registeredProduct st
    /\ (exists message,
          get apiResponse "id" = Throw (type_error message)
          /\ error_message st' = Str message)
    /\ calls w' = (calls w1 ++ anchor_calls ctx data)%list.
Proof.
  intros Hc Hnull. unfold create in Hc.
  unfold onSubmit, try_catch, bind, on_component, in_world. cbn [fst snd].
  rewrite Hc. cbn [fst snd].
  destruct (RegistrationProps.blockchain_step_continues env ctx data apiResponse
              (setError Null (setRegistrationState registering st)) w1)
    as (w2 & -> & _ & Hcalls).
  unfold lift, effect.
  destruct Hnull as [-> | ->]; cbn [get fst snd];
    (eexists _, _; split; [reflexivity|]; split; [reflexivity|];
     split; [reflexivity|]; split; [|exact Hcalls];
     eexists; split; reflexivity).
Qed.

Lemma empty_create_response_is_an_error_witness :
  exists st' w',
    onSubmit (answering (Response 201 Null)) anonymous vaccine_data (initial, fresh_world)
    = ((st', w'), Normal tt)
    /\ registrationState st' = error
    /\ registeredProduct st' = registeredProduct initial
    /\ (exists message,
          get Null "id" = Throw (type_error message)
          /\ error_message st' = Str message)
    /\ calls w'
       = (calls (fst (create (answering (Response 201 Null)) vaccine_data fresh_world))
          ++ anchor_calls anonymous vaccine_data)%list.
Proof.
  apply (empty_create_response_is_an_error (answering (Response 201 Null)) anonymous
           vaccine_data initial fresh_world
           (fst (create (answering (Response 201 Null)) vaccine_data fresh_world)) Null).
  - vm_compute. reflexivity.
  - left. reflexivity.
Defined.

(** X18.  When [generateQRCode] rejects with [null] or [undefined] the
    outer [catch] itself throws on [err.response]: [onSubmit] rejects, and
    the form is left in the [registering] state, with its buttons disabled
    and no error to show. *)
Theorem rejection_without_a_reason_leaves_the_form_registering
    env ctx data st w w1 apiResponse id e isSubmitting :
  create env data w = (w1, Normal apiResponse) ->
  get apiResponse "id" = Normal id ->
  generateQRCode ctx (qr_payload data id) = Throw e ->
  e = Null \/ e = Undefined ->
  exists st' w' message,
    onSubmit env ctx data (st, w) = ((st', w'), Throw (type_error message))
    /\ registrationState st' = registering
    /\ render isSubmitting st'
       = FormView None (errors st) true "Registering on Blockchain...".
Proof.
  intros Hc Hid Hqr He. unfold create in Hc.
  unfold onSubmit, try_catch, bind, on_component, in_world. cbn [fst snd].
  rewrite Hc. cbn [fst snd].
  destruct (RegistrationProps.blockchain_step_continues env ctx data apiResponse
              (setError Null (setRegistrationState registering st)) w1)
    as (w2 & -> & _ & _).
  unfold lift, effect. rewrite Hid. cbn [fst snd].
  unfold qr_payload in Hqr. rewrite Hqr.
  destruct He as [-> | ->]; cbn [get fst snd];
    (eexists _, _, _; split; [reflexivity|]; split; [reflexivity|]);
    unfold render; cbn [registrationState errors setError setRegistrationState];
    rewrite orb_true_r; reflexivity.
Qed.

Lemma rejection_without_a_reason_leaves_the_form_registering_witness :
  exists st' w' message,
    onSubmit (answering (Response 201 created))
      {| account := Null; registerProduct := None;
         generateQRCode := fun _ => Throw Undefined |}
      vaccine_data (initial, fresh_world)
    = ((st', w'), Throw (type_error message))
    /\ registrationState st' = registering
    /\ render false st' = FormView None (errors initial) true "Registering on Blockchain...".
Proof.
  apply (rejection_without_a_reason_leaves_the_form_registering
           (answering (Response 201 created))
           {| account := Null; registerProduct := None;
              generateQRCode := fun _ => Throw Undefined |}
           vaccine_data initial fresh_world
           (fst (create (answering (Response 201 created)) vaccine_data fresh_world))
           created (Str "42") Undefined false).
  - vm_compute. reflexivity.
  - reflexivity.
  - reflexivity.
  - right. reflexivity.
Defined.

(** X19.  The wallet leaves no trace in what the form shows.  Two runs of
    [onSubmit] that differ only in the wallet -- connected or not,
    resolving or rejecting -- end in the same component state with the
    same completion, and send the same requests; the step is visible in
    the console and in the log of calls only. *)
Theorem the_wallet_leaves_no_trace_in_the_form env ctx1 ctx2 data st w :
  generateQRCode ctx1 = generateQRCode ctx2 ->
  fst (fst (onSubmit env ctx1 data (st, w))) = fst (fst (onSubmit env ctx2 data (st, w)))
  /\ snd (onSubmit env ctx1 data (st, w)) = snd (onSubmit env ctx2 data (st, w))
  /\ requests (snd (fst (onSubmit env ctx1 data (st, w))))
     = requests (snd (fst (onSubmit env ctx2 data (st, w)))).
Proof.
  intros Hqr. split; [|split]; [| |rewrite !onSubmit_requests; reflexivity].
  all: destruct (create env data w) as [w1 [apiResponse | err]] eqn:Hc;
    [|rewrite !(RegistrationProps.onSubmit_create_rejected _ _ _ _ _ _ _ Hc); reflexivity].
  all: unfold create in Hc;
    unfold onSubmit, try_catch, bind, on_component, in_world; cbn [fst snd];
    rewrite Hc; cbn [fst snd];
    destruct (RegistrationProps.blockchain_step_continues env ctx1 data apiResponse
                (setError Null (setRegistrationState registering st)) w1)
      as (w2 & -> & _ & _);
    destruct (RegistrationProps.blockchain_step_continues env ctx2 data apiResponse
                (setError Null (setRegistrationState registering st)) w1)
      as (w3 & -> & _ & _);
    unfold lift, effect; cbn [fst snd]; rewrite Hqr;
    destruct (get apiResponse "id") as [id | e]; cbn [fst snd];
    [destruct (generateQRCode ctx2 _) as [qr | e]; cbn [fst snd]; [reflexivity|]|];
    (destruct (get e "response"); cbn [fst snd]; [|reflexivity]);
    (destruct (get e "message"); cbn [fst snd]; reflexivity).
Qed.

Lemma the_wallet_leaves_no_trace_in_the_form_witness :
  fst (fst (onSubmit (answering (Response 201 created))
              (wallet (Throw (an_error "user rejected the transaction")) (Normal data_url))
              vaccine_data (initial, fresh_world)))
  = fst (fst (onSubmit (answering (Response 201 created)) anonymous
                vaccine_data (initial, fresh_world))).
Proof.
  destruct (the_wallet_leaves_no_trace_in_the_form (answering (Response 201 created))
              (wallet (Throw (an_error "user rejected the transaction")) (Normal data_url))
              anonymous vaccine_data initial fresh_world eq_refl) as [H _].
  exact H.
Defined.

(** X20.  After a successful registration everything the success card
    offers comes from the record the service returned, not from the form:
    the four fields shown, the target of "View Product Details"
    ([/products/] followed by the record's [id], so [/products/undefined]
    for a record without one) and the name of the downloaded file (the
    record's [productId], or [product] when it has none, followed by
    [-qr-code.png]).  "Register Another Product" returns to the initial
    state. *)
Theorem the_success_card_shows_the_record
    env ctx data st w w1 apiResponse id qrCode isSubmitting :
  create env data w = (w1, Normal apiResponse) ->
  get apiResponse "id" = Normal id ->
  generateQRCode ctx (qr_payload data id) = Normal qrCode ->
  truthy qrCode = true ->
  exists st' w',
    onSubmit env ctx data (st, w) = ((st', w'), Normal tt)
    /\ render isSubmitting st'
       = SuccessView (opt_get apiResponse "name") (opt_get apiResponse "productId")
           (opt_get apiResponse "id") (opt_get apiResponse "category") (Some qrCode)
    /\ viewProductDetails env (st', w')
       = ((st', set_location (path env "/products/" (opt_get apiResponse "id")) w'),
          Normal tt)
    /\ handleDownloadQR env (st', w')
       = ((st', log_call "link.click"
                  (Obj [("href", qrCode);
                        ("download",
                         Str (to_string (number_to_string env)
                                (or (opt_get apiResponse "productId") (Str "product"))
                              ++ "-qr-code.png"))]) w'),
          Normal tt)
    /\ handleRegisterAnother (st', w') = ((initial, w'), Normal tt).
Proof.
  intros Hc Hid Hqr Htruthy.
  destruct (RegistrationProps.onSubmit_rendered env ctx data st w w1 apiResponse id qrCode
              Hc Hid Hqr) as (w' & Hrun & _).
  exists (succeeded apiResponse qrCode st), w'.
  split; [exact Hrun|].
  split.
  { unfold render, succeeded. cbn [registrationState registeredProduct qrCodeUrl].
    rewrite Htruthy. reflexivity. }
  split; [reflexivity|].
  split.
  { unfold handleDownloadQR, bind, read, in_world, effect, succeeded.
    cbn [fst snd qrCodeUrl registeredProduct]. rewrite Htruthy. reflexivity. }
  reflexivity.
Qed.

Lemma the_success_card_shows_the_record_witness :
  exists st' w',
    onSubmit (answering (Response 201 (Obj [("name", Str "Vaccine X")]))) anonymous
      vaccine_data (initial, fresh_world)
    = ((st', w'), Normal tt)
    /\ viewProductDetails (answering (Response 201 (Obj [("name", Str "Vaccine X")])))
         (st', w')
       = ((st', set_location "/products/undefined" w'), Normal tt)
    /\ handleDownloadQR (answering (Response 201 (Obj [("name", Str "Vaccine X")])))
         (st', w')
       = ((st', log_call "link.click"
                  (Obj [("href", data_url); ("download", Str "product-qr-code.png")]) w'),
          Normal tt).
Proof.
  destruct (the_success_card_shows_the_record
              (answering (Response 201 (Obj [("name", Str "Vaccine X")]))) anonymous
              vaccine_data initial fresh_world
              (fst (create (answering (Response 201 (Obj [("name", Str "Vaccine X")])))
                      vaccine_data fresh_world))
              (Obj [("name", Str "Vaccine X")]) Undefined data_url false)
    as (st' & w' & Hrun & _ & Hlink & Hfile & _).
  - vm_compute. reflexivity.
  - reflexivity.
  - reflexivity.
  - reflexivity.
  - exists st', w'. split; [exact Hrun|]. split; [exact Hlink | exact Hfile].
Defined.

End RegistrationMore.

(** ** The product detail page, further *)

Module DetailMore.
Import ProductDetailPage DetailTerms DetailMoreTerms.

Lemma productsAPI_getById env :
  productsAPI env !! "getById"
  = Some (fun args => api_call env "GET" (path env "/api/products/" (arg 0 args)) Undefined).
Proof. reflexivity. Qed.

Lemma failing_call env method url payload w :
  always_fails env ->
  exists w' e,
    api_call env method url payload w = (w', Throw e)
    /\ truthy e = true
    /\ length (requests w') = S (length (requests w)).
Proof.
  intros Hfail.
  pose proof (ApiProps.api_call_rejection_response env method url payload w) as Hrej.
  pose proof (ApiProps.api_call_logs_request env method url payload w) as Hlog.
  specialize (Hfail (length (requests w)) (ApiTerms.sent env method url payload w)).
  fold (ApiTerms.reply_to env method url payload w) in Hfail.
  destruct (ApiTerms.reply_to env method url payload w) as [status data | | msg];
    [| |destruct Hfail].
  - destruct (Hrej Hfail) as (w' & message & Hrun).
    exists w'. eexists. split; [exact Hrun|]. split; [reflexivity|].
    rewrite Hrun in Hlog. cbn [fst] in Hlog.
    rewrite Hlog by discriminate. rewrite length_app. cbn. lia.
  - destruct Hrej as (w' & Hrun).
    exists w'. eexists. split; [exact Hrun|]. split; [reflexivity|].
    rewrite Hrun in Hlog. cbn [fst] in Hlog.
    rewrite Hlog by discriminate. rewrite length_app. cbn. lia.
Qed.

Lemma failing_attempts env method url payload retries : forall w,
  always_fails env ->
  exists w' e,
    attempt (api_call env method url payload) retries w = (w', Throw e)
    /\ truthy e = true
    /\ length (requests w') = (length (requests w) + S retries)%nat.
Proof.
  induction retries as [|k IH]; intros w Hfail; cbn [attempt]; unfold try_catch;
    destruct (failing_call env method url payload w Hfail) as (w1 & e1 & -> & He & Hlen).
  - exists w1, e1. split; [reflexivity|]. split; [exact He | lia].
  - destruct (IH w1 Hfail) as (w' & e & -> & He' & Hlen').
    exists w', e. split; [reflexivity|]. split; [exact He' | lia].
Qed.

(** X21.  A product fetch the service never lets through is tried once
    and then once more for every retry of the query client: it sends
    [retry + 1] requests and settles in error, without data. *)
Theorem failing_product_fetch_is_retried env rt productId w :
  truthy productId = true ->
  always_fails env ->
  exists w' q,
    productQuery env rt productId Settled w = (w', Normal q)
    /\ length (requests w') = (length (requests w) + S (retry rt))%nat
    /\ data q = Undefined
    /\ isLoading q = false
    /\ truthy (query_error q) = true.
Proof.
  intros Hid Hfail. unfold productQuery, useQuery. rewrite Hid. cbn [negb].
  unfold call_method. rewrite productsAPI_getById.
  unfold try_catch, bind.
  destruct (failing_attempts env "GET" (path env "/api/products/" (arg 0 [productId]))
              Undefined (retry rt) w Hfail) as (w' & e & Hrun & He & Hlen).
  rewrite Hrun. exists w'. eexists. split; [reflexivity|]. split; [exact Hlen|].
  repeat split. exact He.
Qed.

Lemma failing_product_fetch_is_retried_witness :
  exists w' q,
    productQuery (answering (Response 503 Null)) (january 0) (Str "42") Settled fresh_world
    = (w', Normal q)
    /\ length (requests w') = (length (requests fresh_world) + S (retry (january 0)))%nat
    /\ data q = Undefined
    /\ isLoading q = false
    /\ truthy (query_error q) = true.
Proof.
  apply (failing_product_fetch_is_retried (answering (Response 503 Null)) (january 0)
           (Str "42") fresh_world).
  - reflexivity.
  - intros n r. reflexivity.
Defined.

Lemma constant_failure env method url payload status data retries : forall w,
  (forall n r, server env n r = Response status data) ->
  ApiTerms.is_2xx status = false ->
  exists w' message,
    attempt (api_call env method url payload) retries w
    = (w', Throw (axios_error (ApiTerms.error_response status data) true message)).
Proof.
  induction retries as [|k IH]; intros w Hconst Hs; cbn [attempt]; unfold try_catch;
    pose proof (ApiProps.api_call_rejection_response env method url payload w) as Hrej;
    unfold ApiTerms.reply_to in Hrej; rewrite Hconst in Hrej;
    destruct (Hrej Hs) as (w1 & message & ->).
  - exists w1, message. reflexivity.
  - apply IH; assumption.
Qed.

Lemma failed_product_query env rt productId w status data :
  truthy productId = true ->
  (forall n r, server env n r = Response status data) ->
  ApiTerms.is_2xx status = false ->
  exists w' message,
    productQuery env rt productId Settled w
    = (w', Normal (rejected (axios_error (ApiTerms.error_response status data) true
                               message))).
Proof.
  intros Hid Hconst Hs. unfold productQuery, useQuery. rewrite Hid. cbn [negb].
  unfold call_method. rewrite productsAPI_getById.
  unfold try_catch, bind.
  destruct (constant_failure env "GET" (path env "/api/products/" (arg 0 [productId]))
              Undefined status data (retry rt) w Hconst Hs) as (w' & message & ->).
  exists w', message. reflexivity.
Qed.

(** X22.  When the service answers the product fetch outside 2xx, the
    settled page is the error page, and the message it shows is the
    [message] of the answer's body when it has one and ["Failed to load
    product"] otherwise -- never the text the interceptor put on the
    error. *)
Theorem failed_product_fetch_shows_the_message_of_the_body
    env rt productId w status data :
  truthy productId = true ->
  (forall n r, server env n r = Response status data) ->
  ApiTerms.is_2xx status = false ->
  exists w',
    ProductDetailPage env rt productId Settled Settled w
    = (w', Normal (Normal (ProductError
                             (or (opt_get data "message") (Str "Failed to load product"))))).
Proof.
  intros Hid Hconst Hs.
  destruct (failed_product_query env rt productId w status data Hid Hconst Hs)
    as (w' & message & Hp).
  unfold ProductDetailPage, bind. rewrite Hp.
  destruct (DetailProps.checkpointsQuery_has_no_data env rt productId Settled w')
    as (q & -> & _ & Hrej).
  rewrite (Hrej Hid eq_refl). exists w'. reflexivity.
Qed.

Lemma failed_product_fetch_shows_the_message_of_the_body_witness :
  exists w',
    ProductDetailPage (answering (Response 404 (Obj [("message", Str "No product 42")])))
      (january 0) (Str "42") Settled Settled fresh_world
    = (w', Normal (Normal (ProductError (Str "No product 42")))).
Proof.
  apply (failed_product_fetch_shows_the_message_of_the_body
           (answering (Response 404 (Obj [("message", Str "No product 42")])))
           (january 0) (Str "42") fresh_world 404 (Obj [("message", Str "No product 42")])).
  - reflexivity.
  - intros n r. reflexivity.
  - reflexivity.
Defined.

Lemma resolved_product_fetch env rt productId w status body :
  truthy productId = true ->
  ApiTerms.reply_to env "GET" (path env "/api/products/" productId) Undefined w
  = Response status body ->
  ApiTerms.is_2xx status = true ->
  productQuery env rt productId Settled w
  = (log_request (ApiTerms.sent env "GET" (path env "/api/products/" productId) Undefined w) w,
     Normal (resolved body)).
Proof.
  intros Hid Hr Hs. unfold productQuery, useQuery. rewrite Hid. cbn [negb].
  unfold call_method. rewrite productsAPI_getById.
  unfold try_catch, bind. cbn [arg nth].
  assert (Hcall : api_call env "GET" (path env "/api/products/" productId) Undefined w
                  = (log_request (ApiTerms.sent env "GET"
                                    (path env "/api/products/" productId) Undefined w) w,
                     Normal body)).
  { rewrite ApiProps.api_call_cases, Hr, Hs. reflexivity. }
  destruct (retry rt); cbn [attempt]; unfold try_catch; rewrite Hcall; reflexivity.
Qed.

(** X23.  The page takes the product from [data.data.product] of what
    the fetch resolved to.  When the body has no [data] property -- the
    shape [{product}] that [api.js] documents for [getById] is one -- the
    product is [undefined] and rendering the settled page throws on
    [product.name]. *)
Theorem body_without_data_crashes_the_page env rt productId w status props :
  truthy productId = true ->
  ApiTerms.reply_to env "GET" (path env "/api/products/" productId) Undefined w
  = Response status (Obj props) ->
  ApiTerms.is_2xx status = true ->
  own props "data" = Undefined ->
  exists w' message,
    ProductDetailPage env rt productId Settled Settled w
    = (w', Normal (Throw (type_error message))).
Proof.
  intros Hid Hr Hs Hdata.
  unfold ProductDetailPage, bind.
  rewrite (resolved_product_fetch env rt productId w status (Obj props) Hid Hr Hs).
  destruct (DetailProps.checkpointsQuery_has_no_data env rt productId Settled
              (log_request (ApiTerms.sent env "GET" (path env "/api/products/" productId)
                              Undefined w) w))
    as (q & -> & _ & Hrej).
  rewrite (Hrej Hid eq_refl).
  eexists _, _. unfold ret, render, resolved, rejected.
  cbn [data isLoading query_error destructure_product]. rewrite Hdata. reflexivity.
Qed.

Lemma body_without_data_crashes_the_page_witness :
  exists w' message,
    ProductDetailPage (answering (Response 200 (Obj [("product", product_created_at_T1)])))
      (january 0) (Str "42") Settled Settled fresh_world
    = (w', Normal (Throw (type_error message))).
Proof.
  apply (body_without_data_crashes_the_page
           (answering (Response 200 (Obj [("product", product_created_at_T1)])))
           (january 0) (Str "42") fresh_world 200 [("product", product_created_at_T1)]);
    reflexivity.
Defined.

(** X24.  Whatever the two queries and the service do, a page that shows
    the product reports 0 under "Total Checkpoints": the checkpoints query
    never holds data. *)
Theorem total_checkpoints_is_always_zero
    env rt productId productPhase checkpointsPhase w w' name status id journey stats :
  ProductDetailPage env rt productId productPhase checkpointsPhase w
  = (w', Normal (Normal (Detail name status id journey stats))) ->
  totalCheckpoints stats = Num (Fin 0).
Proof.
  unfold ProductDetailPage, bind, productQuery.
  destruct (DetailProps.useQuery_returns rt (truthy productId)
              (call_method "productsAPI" (productsAPI env) "getById" [productId])
              productPhase w) as (w1 & productQ & ->).
  destruct (DetailProps.checkpointsQuery_has_no_data env rt productId checkpointsPhase w1)
    as (q & -> & Hd & _).
  unfold ret, render. intros [= _ Hpage]. revert Hpage.
  destruct (destructure_product (data productQ)) as [product|]; [|discriminate].
  destruct (isLoading productQ || isLoading q); [discriminate|].
  destruct (truthy (query_error productQ)); [discriminate|].
  destruct (get product "name"); [|discriminate].
  destruct (timeline q); [|discriminate].
  destruct (daysInTransit env rt product); [|discriminate].
  intros [= _ _ _ _ <-]. cbn [totalCheckpoints]. rewrite Hd. reflexivity.
Qed.

Lemma total_checkpoints_is_always_zero_witness :
  exists w' name status id journey stats,
    ProductDetailPage
      (answering (Response 200 (Obj [("data", Obj [("product", product_created_at_T1)])])))
      (january 1893715200000) (Str "42") Settled Settled fresh_world
    = (w', Normal (Normal (Detail name status id journey stats)))
    /\ totalCheckpoints stats = Num (Fin 0).
Proof.
  eexists _, _, _, _, _, _. split.
  - reflexivity.
  - eapply (total_checkpoints_is_always_zero
              (answering (Response 200 (Obj [("data", Obj [("product", product_created_at_T1)])])))
              (january 1893715200000) (Str "42") Settled Settled fresh_world).
    reflexivity.
Defined.

(** X25.  Without a route id (a falsy [params.id]) both queries are
    disabled: nothing is requested, and the page is the spinner or throws
    -- it never shows a product. *)
Theorem no_route_id_no_product env rt productId productPhase checkpointsPhase w :
  truthy productId = false ->
  exists page,
    ProductDetailPage env rt productId productPhase checkpointsPhase w = (w, Normal page)
    /\ (page = Normal Spinner \/ exists e, page = Throw e).
Proof.
  intros Hid. unfold ProductDetailPage, bind, productQuery, checkpointsQuery, useQuery, ret.
  rewrite Hid. cbn [negb]. eexists. split; [reflexivity|].
  unfold render. cbn [data isLoading query_error destructure_product truthy orb].
  destruct (disabled_isLoading rt); [left; reflexivity|].
  right. eexists. reflexivity.
Qed.

Lemma no_route_id_no_product_witness :
  exists page,
    ProductDetailPage (answering (Response 200 Null)) (january 0) Undefined Settled Settled
      fresh_world
    = (fresh_world, Normal page)
    /\ (page = Normal Spinner \/ exists e, page = Throw e).
Proof.
  apply (no_route_id_no_product (answering (Response 200 Null)) (january 0) Undefined
           Settled Settled fresh_world).
  reflexivity.
Defined.

Lemma daysInTransit_at env rt clock props t :
  truthy (own props "createdAt") = true ->
  new_Date env rt (own props "createdAt") = Some t ->
  daysInTransit env (at_time clock rt) (Obj props)
  = Normal (Fin (inject_Z ((clock - t) / 86400000))).
Proof.
  intros Ht Hd. unfold daysInTransit. cbn [get]. rewrite Ht.
  change (new_Date env (at_time clock rt) (own props "createdAt"))
    with (new_Date env rt (own props "createdAt")).
  rewrite Hd. reflexivity.
Qed.

(** X26.  For a product with a valid creation time the statistic follows
    the clock: it never decreases as time passes, and a render exactly one
    day (86,400,000 ms) later shows exactly one more. *)
Theorem daysInTransit_follows_the_clock env rt props t clock later :
  truthy (own props "createdAt") = true ->
  new_Date env rt (own props "createdAt") = Some t ->
  clock <= later ->
  exists d d',
    daysInTransit env (at_time clock rt) (Obj props) = Normal (Fin (inject_Z d))
    /\ daysInTransit env (at_time later rt) (Obj props) = Normal (Fin (inject_Z d'))
    /\ d <= d'
    /\ daysInTransit env (at_time (clock + 86400000) rt) (Obj props)
       = Normal (Fin (inject_Z (d + 1))).
Proof.
  intros Ht Hd Hle.
  exists ((clock - t) / 86400000), ((later - t) / 86400000).
  rewrite !(daysInTransit_at env rt _ props t Ht Hd).
  split; [reflexivity|]. split; [reflexivity|]. split.
  - apply Z.div_le_mono; lia.
  - do 3 f_equal.
    replace (clock + 86400000 - t) with ((clock - t) + 1 * 86400000) by lia.
    rewrite Z.div_add by lia. reflexivity.
Qed.

Lemma daysInTransit_follows_the_clock_witness :
  exists d d',
    daysInTransit (answering NoResponse) (at_time 1893456000000 (january 0))
      (Obj [("createdAt", Str T1)]) = Normal (Fin (inject_Z d))
    /\ daysInTransit (answering NoResponse) (at_time 1893715200000 (january 0))
         (Obj [("createdAt", Str T1)]) = Normal (Fin (inject_Z d'))
    /\ d <= d'
    /\ daysInTransit (answering NoResponse) (at_time (1893456000000 + 86400000) (january 0))
         (Obj [("createdAt", Str T1)]) = Normal (Fin (inject_Z (d + 1))).
Proof.
  apply (daysInTransit_follows_the_clock (answering NoResponse) (january 0)
           [("createdAt", Str T1)] 1893456000000 1893456000000 1893715200000).
  - reflexivity.
  - reflexivity.
  - cbn. lia.
Defined.

(** X27.  A creation time that is present but is not a valid date does not
    count as missing: the settled page shows [NaN] days in transit, not
    0. *)
Theorem invalid_creation_time_shows_NaN env rt props checkpointsQ journey :
  truthy (own props "createdAt") = true ->
  new_Date env rt (own props "createdAt") = None ->
  isLoading checkpointsQ = false ->
  timeline checkpointsQ = Normal journey ->
  render env rt (delivered (Obj props)) checkpointsQ
  = Normal (Detail (own props "name") (own props "status") (own props "productId") journey
              {| totalCheckpoints := length_or_zero (data checkpointsQ);
                 daysInTransitShown := NaN;
                 temperatureAlerts := 0 |}).
Proof.
  intros Ht Hd Hload Htl. unfold render, delivered, resolved.
  cbn [data isLoading query_error destructure_product own String.eqb Ascii.eqb Bool.eqb
       opt_get truthy orb get].
  rewrite Hload, Htl. unfold daysInTransit. cbn [get]. rewrite Ht, Hd. reflexivity.
Qed.

Lemma invalid_creation_time_shows_NaN_witness :
  render (answering NoResponse) (january 0)
    (delivered (Obj [("name", Str "Vaccine X"); ("createdAt", Str "yesterday")]))
    (rejected (type_error "checkpointsAPI.getByProductId is not a function"))
  = Normal (Detail (Str "Vaccine X") Undefined Undefined
              (TimelineError "Failed to load checkpoints")
              {| totalCheckpoints := Num (Fin 0); daysInTransitShown := NaN;
                 temperatureAlerts := 0 |}).
Proof.
  apply (invalid_creation_time_shows_NaN (answering NoResponse) (january 0)
           [("name", Str "Vaccine X"); ("createdAt", Str "yesterday")]
           (rejected (type_error "checkpointsAPI.getByProductId is not a function"))
           (TimelineError "Failed to load checkpoints")); reflexivity.
Defined.

End DetailMore.
